(** * Chatbot: the turn orchestrator, the message input form and the
      citation list, embedded from the TypeScript sources.

    - [JsString]  : the string primitives of the host language that the
                    sources call ([trim], [startsWith], [includes],
                    [split], truthiness).
    - data model  : [types.ts].
    - section [WithEnv] : [services/geminiService.ts] and the root
                    component with [fileToBase64] and [handleSendMessage],
                    over the answers [env] of the outside world.
    - [MessageInput] : [components/MessageInput.tsx].
    - [ChatWindow]   : [components/ChatWindow.tsx] ([renderSources]).
    - [Session]   : the event loop that ties the components together.

    Strings are sequences of code units; the development covers the
    code units 0..255, which is what [Ascii.ascii] holds. *)

From Stdlib Require Import String Ascii List Bool ZArith Arith Lia.
From Stdlib Require Import DecimalString DecimalNat.
Import ListNotations.
Open Scope string_scope.

(* ================================================================== *)
(** ** Host-language string primitives *)
(* ================================================================== *)

Module JsString.

(** [WhiteSpace] and [LineTerminator] code units below 256: TAB, LF, VT,
    FF, CR, SP and NBSP.  This is the set [String.prototype.trim]
    strips. *)
Definition isWhiteSpace (c : ascii) : bool :=
  let n := nat_of_ascii c in
  ((n =? 9) || (n =? 10) || (n =? 11) || (n =? 12) || (n =? 13)
   || (n =? 32) || (n =? 160))%nat.

Fixpoint trimStart (s : string) : string :=
  match s with
  | EmptyString => EmptyString
  | String c r => if isWhiteSpace c then trimStart r else s
  end.

Fixpoint trimEnd (s : string) : string :=
  match s with
  | EmptyString => EmptyString
  | String c r =>
      match trimEnd r with
      | EmptyString => if isWhiteSpace c then EmptyString else String c EmptyString
      | r' => String c r'
      end
  end.

Definition trim (s : string) : string := trimEnd (trimStart s).

(** A string is truthy exactly when it is not empty. *)
Definition truthy (s : string) : bool :=
  match s with EmptyString => false | String _ _ => true end.

Fixpoint startsWith (p s : string) : bool :=
  match p, s with
  | EmptyString, _ => true
  | String a p', String b s' => Ascii.eqb a b && startsWith p' s'
  | String _ _, EmptyString => false
  end.

Fixpoint includes (needle s : string) : bool :=
  startsWith needle s
  || match s with
     | EmptyString => false
     | String _ r => includes needle r
     end.

(** [s.split(sep)] for a one-character separator. *)
Fixpoint split (sep : ascii) (s : string) : list string :=
  match s with
  | EmptyString => [EmptyString]
  | String c r =>
      if Ascii.eqb c sep then EmptyString :: split sep r
      else match split sep r with
           | [] => [String c EmptyString]
           | h :: t => String c h :: t
           end
  end.

Definition allWhiteSpace (s : string) : Prop :=
  forall c, In c (list_ascii_of_string s) -> isWhiteSpace c = true.

End JsString.

(* ================================================================== *)
(** ** Data model ([types.ts]) *)
(* ================================================================== *)

Inductive ChatMode := Standard | SearchGrounded | FastResponse.

(** The string value of each enum member; the mode selector shows it. *)
Definition ChatMode_value (m : ChatMode) : string :=
  match m with
  | Standard => "Standard Chat (Gemini 3 Pro)"
  | SearchGrounded => "Search Grounded (Gemini 3 Flash)"
  | FastResponse => "Fast Response (Gemini Flash Lite)"
  end.

Inductive Sender := user | ai.

Record ToolSource := {
  uri : string;
  title : option string
}.

Record Message := {
  id : string;
  sender : Sender;
  text : string;
  imageUrl : option string;
  sources : option (list ToolSource);
  timestamp : Z
}.

(** What the orchestrator hands to the Standard capability:
    [{ data: string; mimeType: string }].  [data] is [None] when
    [split(',')[1]] was [undefined]. *)
Record FileData := {
  data : option string;
  mimeType : string
}.

(** A browser [File]: its declared media type and what a [FileReader]
    produces for it. *)
Inductive ReaderOutcome :=
| ReaderLoadString (dataUrl : string)   (* onload, result is a string *)
| ReaderLoadOther                       (* onload, result is not a string *)
| ReaderFailure.                        (* onerror *)

Record File := {
  file_type : string;
  file_reader : ReaderOutcome
}.

(** Values that are thrown or used to reject a promise. *)
Inductive Thrown :=
| Error (message : string)
| ProgressEvent.

(* ================================================================== *)
(** ** The SDK boundary ([@google/genai]) *)
(* ================================================================== *)

Inductive Part :=
| TextPart (t : string)
| InlineDataPart (mime : string) (payload : option string).

Inductive Contents :=
| ContentsParts (parts : list Part)
| ContentsPrompt (prompt : string).

Inductive Config :=
| NoConfig
| GoogleSearchTool                      (* tools: [{ googleSearch: {} }] *)
| ThinkingBudget (budget : Z).          (* thinkingConfig: { thinkingBudget } *)

Record GenerateContentParameters := {
  model : string;
  contents : Contents;
  config : Config
}.

Record WebChunk := { web_uri : string; web_title : option string }.
Record ReviewSnippet := { snippet_uri : string; snippet_text : option string }.
Record PlaceSource := { reviewSnippets : option (list ReviewSnippet) }.
Record MapsChunk := {
  maps_uri : string;
  maps_title : option string;
  placeAnswerSources : option (list PlaceSource)
}.
Record GroundingChunk := { web : option WebChunk; maps : option MapsChunk }.

Record GenerateContentResponse := {
  response_text : option string;
  groundingChunks : option (list GroundingChunk)
                    (* candidates?.[0]?.groundingMetadata?.groundingChunks *)
}.

Inductive SdkOutcome :=
| SdkResolves (r : GenerateContentResponse)
| SdkRejects (e : Thrown).

(** [window.aistudio.openSelectKey], when the host provides it. *)
Inductive SelectKeyOutcome := SelectKeyResolves | SelectKeyRejects (e : Thrown).

(** Everything the outside world decides during one turn. *)
Record Env := {
  randomUUID : nat -> string;            (* crypto.randomUUID(), by call number *)
  now : nat -> Z;                        (* new Date(), by call number *)
  genai_ctor : option string;            (* new GoogleGenAI(..): Some m = throws Error(m) *)
  generateContent : GenerateContentParameters -> SdkOutcome;
  openSelectKey : option SelectKeyOutcome  (* None: window.aistudio has no such function *)
}.

(* ================================================================== *)
(** ** Observable calls and the world state *)
(* ================================================================== *)

Inductive Capability := CapStandard | CapSearchGrounded | CapFast.

Inductive Event :=
| ConsoleError (label : string)
| CreateObjectURL (url : string)
| RevokeObjectURL (url : string)
| Alert (msg : string)
| CallStandard (prompt : string) (fileData : option FileData)
| CallSearchGrounded (prompt : string)
| CallFast (prompt : string)
| NewGoogleGenAI
| SdkGenerateContent (req : GenerateContentParameters)
| OpenSelectKey.

(** The state of the message form ([useState] cells of [MessageInput]). *)
Record InputState := {
  inputText : string;
  selectedFile : option File;
  inputPreviewUrl : option string       (* the form's own [filePreviewUrl] *)
}.

(** A call of [handleSendMessage] that has set the flag and is suspended
    at an [await]; [turn_mode] is the mode its closure captured. *)
Record PendingTurn := {
  turn_mode : ChatMode;
  turn_text : string;
  turn_file : option File
}.

Record World := {
  messages : list Message;        (* useState<Message[]>([]) *)
  isLoading : bool;               (* useState<boolean>(false) *)
  currentMode : ChatMode;         (* useState<ChatMode>(ChatMode.Standard) *)
  input : InputState;             (* the message form *)
  pending : list PendingTurn;     (* suspended turns *)
  trace : list Event;             (* calls made so far, oldest first *)
  ticks : nat;                    (* values drawn from randomUUID / Date *)
  blobs : nat                     (* object URLs created *)
}.

Definition with_messages (f : list Message -> list Message) (w : World) : World :=
  {| messages := f (messages w); isLoading := isLoading w;
     currentMode := currentMode w; input := input w; pending := pending w;
     trace := trace w; ticks := ticks w; blobs := blobs w |}.

Definition with_isLoading (b : bool) (w : World) : World :=
  {| messages := messages w; isLoading := b;
     currentMode := currentMode w; input := input w; pending := pending w;
     trace := trace w; ticks := ticks w; blobs := blobs w |}.

Definition with_currentMode (m : ChatMode) (w : World) : World :=
  {| messages := messages w; isLoading := isLoading w;
     currentMode := m; input := input w; pending := pending w;
     trace := trace w; ticks := ticks w; blobs := blobs w |}.

Definition with_input (f : InputState -> InputState) (w : World) : World :=
  {| messages := messages w; isLoading := isLoading w;
     currentMode := currentMode w; input := f (input w); pending := pending w;
     trace := trace w; ticks := ticks w; blobs := blobs w |}.

Definition with_pending (f : list PendingTurn -> list PendingTurn) (w : World) : World :=
  {| messages := messages w; isLoading := isLoading w;
     currentMode := currentMode w; input := input w; pending := f (pending w);
     trace := trace w; ticks := ticks w; blobs := blobs w |}.

Definition with_event (e : Event) (w : World) : World :=
  {| messages := messages w; isLoading := isLoading w;
     currentMode := currentMode w; input := input w; pending := pending w;
     trace := (trace w ++ [e])%list; ticks := ticks w; blobs := blobs w |}.

Definition with_tick (w : World) : World :=
  {| messages := messages w; isLoading := isLoading w;
     currentMode := currentMode w; input := input w; pending := pending w;
     trace := trace w; ticks := S (ticks w); blobs := blobs w |}.

Definition with_blob (w : World) : World :=
  {| messages := messages w; isLoading := isLoading w;
     currentMode := currentMode w; input := input w; pending := pending w;
     trace := trace w; ticks := ticks w; blobs := S (blobs w) |}.

Definition emptyInput : InputState :=
  {| inputText := ""; selectedFile := None; inputPreviewUrl := None |}.

Definition initialWorld : World :=
  {| messages := []; isLoading := false; currentMode := Standard;
     input := emptyInput; pending := [];
     trace := []; ticks := 0; blobs := 0 |}.

(* ================================================================== *)
(** ** A monad for statements: state, exceptions and early [return] *)
(* ================================================================== *)

Inductive Completion (A : Type) :=
| Normal (a : A)
| Returned                 (* a [return;] statement ran *)
| Throws (e : Thrown).
Arguments Normal {A} a.
Arguments Returned {A}.
Arguments Throws {A} e.

Definition M (A : Type) := World -> Completion A * World.

Definition ret {A} (a : A) : M A := fun w => (Normal a, w).

Definition bind {A B} (m : M A) (k : A -> M B) : M B :=
  fun w =>
    match m w with
    | (Normal a, w') => k a w'
    | (Returned, w') => (Returned, w')
    | (Throws e, w') => (Throws e, w')
    end.

Declare Scope js_scope.
Delimit Scope js_scope with js.
Notation "x <- m ;; k" := (bind m (fun x => k))
  (at level 61, m at next level, right associativity) : js_scope.
Notation "m ;; k" := (bind m (fun _ => k))
  (at level 61, right associativity) : js_scope.
Open Scope js_scope.

Definition throw {A} (e : Thrown) : M A := fun w => (Throws e, w).
Definition return_ {A} : M A := fun w => (Returned, w).
Definition modify (f : World -> World) : M unit := fun w => (Normal tt, f w).
Definition emit (e : Event) : M unit := modify (with_event e).

(** [try { m } catch (error) { h error }] *)
Definition try_catch {A} (m : M A) (h : Thrown -> M A) : M A :=
  fun w =>
    match m w with
    | (Throws e, w') => h e w'
    | r => r
    end.

(** [try { m } finally { f }]: [f] runs on every completion of [m], and an
    abrupt completion of [f] replaces the completion of [m]. *)
Definition try_finally {A} (m : M A) (f : M unit) : M A :=
  fun w =>
    let (c, w1) := m w in
    match f w1 with
    | (Normal _, w2) => (c, w2)
    | (Returned, w2) => (Returned, w2)
    | (Throws e, w2) => (Throws e, w2)
    end.

(** The body of a function: [return;] ends the call normally. *)
Definition function_body (m : M unit) : M unit :=
  fun w =>
    match m w with
    | (Returned, w') => (Normal tt, w')
    | r => r
    end.

Definition when (b : bool) (m : M unit) : M unit := if b then m else ret tt.

(* ================================================================== *)
(** ** Browser primitives *)
(* ================================================================== *)

(** Object URLs are fresh, non-empty strings. *)
Definition blobUrl (n : nat) : string :=
  "blob:" ++ NilEmpty.string_of_uint (Nat.to_uint n).

Section WithEnv.

Variable env : Env.

Definition console_error (label : string) : M unit := emit (ConsoleError label).

Definition crypto_randomUUID : M string :=
  fun w => (Normal (randomUUID env (ticks w)), with_tick w).

Definition new_Date : M Z :=
  fun w => (Normal (now env (ticks w)), with_tick w).

Definition URL_createObjectURL (_ : File) : M string :=
  fun w =>
    let u := blobUrl (blobs w) in
    (Normal u, with_event (CreateObjectURL u) (with_blob w)).

Definition URL_revokeObjectURL (u : string) : M unit := emit (RevokeObjectURL u).

Definition setMessages (f : list Message -> list Message) : M unit :=
  modify (with_messages f).

Definition setIsLoading (b : bool) : M unit := modify (with_isLoading b).

(* ================================================================ *)
(** ** [services/geminiService.ts] *)
(* ================================================================ *)

Definition getResponseText (response : GenerateContentResponse) : string :=
  match response_text response with
  | Some t => t
  | None => "No text response received."
  end.

Definition snippetSources (p : PlaceSource) : list ToolSource :=
  match reviewSnippets p with
  | Some snippets =>
      map (fun s => {| uri := snippet_uri s; title := snippet_text s |}) snippets
  | None => []
  end.

Definition chunkSources (chunk : GroundingChunk) : list ToolSource :=
  match web chunk with
  | Some wc => [{| uri := web_uri wc; title := web_title wc |}]
  | None =>
      match maps chunk with
      | Some mc =>
          {| uri := maps_uri mc; title := maps_title mc |}
            :: match placeAnswerSources mc with
               | Some places => flat_map snippetSources places
               | None => []
               end
      | None => []
      end
  end.

Definition extractGroundingSources (response : GenerateContentResponse)
  : list ToolSource :=
  match groundingChunks response with
  | Some chunks => flat_map chunkSources chunks
  | None => []
  end.

(** The [{ text, sources? }] object every capability resolves to. *)
Record Generated := {
  generated_text : string;
  generated_sources : option (list ToolSource)
}.

Definition getGenAIClient : M unit :=
  emit NewGoogleGenAI ;;
  match genai_ctor env with
  | None => ret tt
  | Some m => throw (Error m)
  end.

Definition models_generateContent (req : GenerateContentParameters)
  : M GenerateContentResponse :=
  emit (SdkGenerateContent req) ;;
  match generateContent env req with
  | SdkResolves r => ret r
  | SdkRejects e => throw e
  end.

Definition generateContentStandard (prompt : string) (fileData : option FileData)
  : M Generated :=
  emit (CallStandard prompt fileData) ;;
  getGenAIClient ;;
  let model := "gemini-3-pro-preview" in
  let parts :=
    ([TextPart prompt]
       ++ match fileData with
          | Some fd => [InlineDataPart (mimeType fd) (data fd)]
          | None => []
          end)%list in
  try_catch
    (response <- models_generateContent
                   {| model := model; contents := ContentsParts parts;
                      config := NoConfig |} ;;
     ret {| generated_text := getResponseText response;
            generated_sources := Some (extractGroundingSources response) |})
    (fun error =>
       console_error ("Error in generateContentStandard with model " ++ model ++ ":") ;;
       throw (Error ("Failed to get response from " ++ model
                       ++ ". Check console for details."))).

Definition generateContentSearchGrounded (prompt : string) : M Generated :=
  emit (CallSearchGrounded prompt) ;;
  getGenAIClient ;;
  let model := "gemini-3-flash-preview" in
  try_catch
    (response <- models_generateContent
                   {| model := model; contents := ContentsPrompt prompt;
                      config := GoogleSearchTool |} ;;
     let sources := extractGroundingSources response in
     ret {| generated_text := getResponseText response;
            generated_sources := Some sources |})
    (fun error =>
       console_error ("Error in generateContentSearchGrounded with model " ++ model ++ ":") ;;
       throw (Error ("Failed to get search-grounded response from " ++ model
                       ++ ". Check console for details."))).

Definition generateContentFast (prompt : string) : M Generated :=
  emit (CallFast prompt) ;;
  getGenAIClient ;;
  let model := "gemini-flash-lite-latest" in
  try_catch
    (response <- models_generateContent
                   {| model := model; contents := ContentsPrompt prompt;
                      config := ThinkingBudget 0 |} ;;
     ret {| generated_text := getResponseText response;
            generated_sources := Some (extractGroundingSources response) |})
    (fun error =>
       console_error ("Error in generateContentFast with model " ++ model ++ ":") ;;
       throw (Error ("Failed to get fast response from " ++ model
                       ++ ". Check console for details."))).

(* ================================================================ *)
(** ** The root component: [fileToBase64] and [handleSendMessage] *)
(* ================================================================ *)

(** A promise that touches no state: [inl] rejects, [inr] resolves. *)
Definition await {A} (p : Thrown + A) : M A :=
  match p with
  | inr a => ret a
  | inl e => throw e
  end.

(** Resolves with [reader.result.split(',')[1]], or rejects. *)
Definition fileToBase64 (file : File) : Thrown + option string :=
  match file_reader file with
  | ReaderLoadString result => inr (nth_error (JsString.split "," result) 1)
  | ReaderLoadOther => inl (Error "Failed to read file as string.")
  | ReaderFailure => inl ProgressEvent
  end.

(** [setMessages((prev) => [...prev, { id, sender, text, imageUrl?, sources?, timestamp }])] *)
Definition appendMessage (s : Sender) (t : string) (img : option string)
           (src : option (list ToolSource)) : M unit :=
  i <- crypto_randomUUID ;;
  d <- new_Date ;;
  setMessages (fun prev =>
    (prev ++ [{| id := i; sender := s; text := t; imageUrl := img;
                 sources := src; timestamp := d |}])%list).

Definition decodeErrorText : string := "Error processing file. Please try again.".
Definition searchAdvisoryText : string :=
  "File uploads are not supported in Search Grounded mode. Please switch to Standard Chat for multimodal input.".
Definition fastAdvisoryText : string :=
  "File uploads are not supported in Fast Response mode. Please switch to Standard Chat for multimodal input.".
Definition genericErrorText : string :=
  "An error occurred while communicating with the AI.".
Definition credentialSignature : string := "Requested entity was not found.".
Definition credentialErrorText : string :=
  "API key issue: Requested entity was not found. Please ensure your API key is correct and associated with a paid GCP project. You can update it by clicking 'Select API Key' in the AI Studio menu.".

(** [if (filePreviewUrl) URL.revokeObjectURL(filePreviewUrl);] *)
Definition revokeIfSet (filePreviewUrl : option string) : M unit :=
  match filePreviewUrl with
  | Some u => when (JsString.truthy u) (URL_revokeObjectURL u)
  | None => ret tt
  end.

(** [if (window.aistudio && typeof window.aistudio.openSelectKey === 'function')
      await window.aistudio.openSelectKey();] *)
Definition reselectCredential : M unit :=
  match openSelectKey env with
  | Some outcome =>
      emit OpenSelectKey ;;
      match outcome with
      | SelectKeyResolves => ret tt
      | SelectKeyRejects e => throw e
      end
  | None => ret tt
  end.

(** The [catch (error: any)] block of the gateway call.  Reading
    [.includes] off a missing [message] is itself a [TypeError]. *)
Definition onGatewayError (error : Thrown) : M unit :=
  console_error "Gemini API Error:" ;;
  errorMessage <-
    match error with
    | Error message =>
        if JsString.includes credentialSignature message then
          reselectCredential ;;
          ret credentialErrorText
        else if JsString.truthy message then
          ret ("AI Error: " ++ message)
        else
          ret genericErrorText
    | ProgressEvent =>
        throw (Error "Cannot read properties of undefined (reading 'includes')")
    end ;;
  appendMessage ai errorMessage None None.

(** The [switch (currentMode)] statement. *)
Definition dispatch (mode : ChatMode) (text : string)
           (fileData : option FileData) (filePreviewUrl : option string)
  : M Generated :=
  match mode with
  | SearchGrounded =>
      match fileData with
      | Some _ =>
          appendMessage ai searchAdvisoryText None None ;;
          setIsLoading false ;;
          revokeIfSet filePreviewUrl ;;
          return_
      | None => generateContentSearchGrounded text
      end
  | FastResponse =>
      match fileData with
      | Some _ =>
          appendMessage ai fastAdvisoryText None None ;;
          setIsLoading false ;;
          revokeIfSet filePreviewUrl ;;
          return_
      | None => generateContentFast text
      end
  | Standard => generateContentStandard text fileData
  end.

(** [if (file) { try { ... } catch (error) { ...; return; } }] *)
Definition readAttachment (file : option File)
  : M (option FileData * option string) :=
  match file with
  | Some f =>
      try_catch
        (d <- await (fileToBase64 f) ;;
         u <- URL_createObjectURL f ;;
         ret (Some {| data := d; mimeType := file_type f |}, Some u))
        (fun error =>
           console_error "Error reading file:" ;;
           appendMessage ai decodeErrorText None None ;;
           setIsLoading false ;;
           return_)
  | None => ret (None, None)
  end.

(** Everything [handleSendMessage] does after [setIsLoading(true)]. *)
Definition sendMessageSteps (mode : ChatMode) (text : string) (file : option File)
  : M unit :=
  attachment <- readAttachment file ;;
  let fileData := fst attachment in
  let filePreviewUrl := snd attachment in
  appendMessage user text filePreviewUrl None ;;
  try_finally
    (try_catch
       (result <- dispatch mode text fileData filePreviewUrl ;;
        appendMessage ai (generated_text result) None (generated_sources result))
       onGatewayError)
    (setIsLoading false ;;
     revokeIfSet filePreviewUrl).

Definition handleSendMessage (mode : ChatMode) (text : string) (file : option File)
  : M unit :=
  function_body (setIsLoading true ;; sendMessageSteps mode text file).

(** [const isMultimodalMode = currentMode === ChatMode.Standard;] *)
Definition isMultimodalMode (mode : ChatMode) : bool :=
  match mode with Standard => true | _ => false end.

End WithEnv.

(* ================================================================== *)
(** ** [components/MessageInput.tsx] *)
(* ================================================================== *)

Module MessageInput.

Definition setInputText (s : string) : M unit :=
  modify (with_input (fun i =>
    {| inputText := s; selectedFile := selectedFile i;
       inputPreviewUrl := inputPreviewUrl i |})).

Definition setSelectedFile (f : option File) : M unit :=
  modify (with_input (fun i =>
    {| inputText := inputText i; selectedFile := f;
       inputPreviewUrl := inputPreviewUrl i |})).

Definition setFilePreviewUrl (u : option string) : M unit :=
  modify (with_input (fun i =>
    {| inputText := inputText i; selectedFile := selectedFile i;
       inputPreviewUrl := u |})).

Definition read {A} (f : World -> A) : M A := fun w => (Normal (f w), w).

Definition handleTextChange (value : string) : M unit := setInputText value.

Definition fileAlertText : string :=
  "Please upload an image file (PNG, JPG, JPEG, GIF, WEBP).".

(** [file] is [e.target.files?.[0]]. *)
Definition handleFileChange (file : option File) : M unit :=
  match file with
  | Some f =>
      if JsString.startsWith "image/" (file_type f) then
        setSelectedFile (Some f) ;;
        u <- URL_createObjectURL f ;;
        setFilePreviewUrl (Some u)
      else
        setSelectedFile None ;;
        setFilePreviewUrl None ;;
        emit (Alert fileAlertText)
  | None =>
      setSelectedFile None ;;
      setFilePreviewUrl None
  end.

(** Resetting the DOM input's value has no effect on any state the
    components read. *)
Definition clearFile : M unit :=
  setSelectedFile None ;;
  u <- read (fun w => inputPreviewUrl (input w)) ;;
  match u with
  | Some url =>
      if JsString.truthy url then
        URL_revokeObjectURL url ;;
        setFilePreviewUrl None
      else ret tt
  | None => ret tt
  end.

(** [isLoading] is the prop the root component passes down, that is the
    flag as last rendered. *)
Definition handleSubmit (onSendMessage : string -> option File -> M unit) : M unit :=
  function_body (
    loading <- read isLoading ;;
    (if loading then return_ else ret tt) ;;
    inputText <- read (fun w => inputText (input w)) ;;
    selectedFile <- read (fun w => selectedFile (input w)) ;;
    if JsString.truthy (JsString.trim inputText)
       || match selectedFile with Some _ => true | None => false end
    then
      onSendMessage (JsString.trim inputText) selectedFile ;;
      setInputText "" ;;
      clearFile
    else ret tt).

End MessageInput.

(* ================================================================== *)
(** ** The event loop *)
(* ================================================================== *)

Module Session.

(** What a call of [handleSendMessage] does before it is suspended.  The
    suspension is placed right after the flag is set: the guards of the
    form read the flag, not the position of the [await].  The call itself
    goes on to its first [await]; for a submission without file it has by
    then appended the user turn and handed the request to the SDK, which
    here happens when the turn is resumed.  What is stated over sessions
    therefore concerns the flag, the suspended turns, the form, the
    revocations and properties of the log that do not depend on when
    within a turn a message is appended. *)
Definition beginTurn (mode : ChatMode) (text : string) (file : option File) : M unit :=
  setIsLoading true ;;
  modify (with_pending (fun q =>
    (q ++ [{| turn_mode := mode; turn_text := text; turn_file := file |}])%list)).

Fixpoint remove_nth {A} (i : nat) (l : list A) : list A :=
  match l, i with
  | [], _ => []
  | _ :: t, O => t
  | x :: t, S j => x :: remove_nth j t
  end.

(** The rest of a suspended call, run to its end with the answers [env]
    of the outside world. *)
Definition resumeTurn (env : Env) (i : nat) : M unit :=
  fun w =>
    match nth_error (pending w) i with
    | Some t =>
        function_body
          (sendMessageSteps env (turn_mode t) (turn_text t) (turn_file t))
          (with_pending (remove_nth i) w)
    | None => (Normal tt, w)
    end.

Inductive UiEvent :=
| TypeText (value : string)          (* onChange of the textarea *)
| ChooseFile (file : option File)    (* onChange of the file input *)
| ClearFile                          (* onClear of the preview *)
| Submit                             (* onSubmit, or Enter in the textarea *)
| ChangeMode (mode : ChatMode)       (* onModeChange = setCurrentMode *)
| Resume (env : Env) (i : nat).      (* a suspended turn runs on *)

(** An event handler runs to completion; what it throws is not seen by
    the components. *)
Definition step (w : World) (ev : UiEvent) : World :=
  match ev with
  | TypeText value => snd (MessageInput.handleTextChange value w)
  | ChooseFile file => snd (MessageInput.handleFileChange file w)
  | ClearFile => snd (MessageInput.clearFile w)
  | Submit => snd (MessageInput.handleSubmit (beginTurn (currentMode w)) w)
  | ChangeMode mode => with_currentMode mode w
  | Resume env i => snd (resumeTurn env i w)
  end.

Definition run (evs : list UiEvent) : World := fold_left step evs initialWorld.

End Session.



(* ================================================================== *)
(** ** [components/ChatWindow.tsx]: the citation list *)
(* ================================================================== *)

Module ChatWindow.

Record Anchor := {
  href : string;
  tooltip : string;        (* the [title] attribute *)
  label : string           (* the text shown *)
}.

Section WithURL.

(** [new URL(uri).hostname]; [None] when the constructor throws. *)
Variable hostname : string -> option string.

(** [a || b] on an optional string and a computation. *)
Definition orElse {A} (a : option string) (k : string -> A) (b : A) : A :=
  match a with
  | Some s => if JsString.truthy s then k s else b
  | None => b
  end.

(** [source.title || new URL(source.uri).hostname + (source.uri.length > 50 ? '...' : '')] *)
Definition sourceLabel (source : ToolSource) : option string :=
  orElse (title source) Some
    (match hostname (uri source) with
     | Some h => Some (h ++ (if (50 <? String.length (uri source))%nat then "..." else ""))
     | None => None
     end).

(** [source.title || source.uri] *)
Definition sourceTooltip (source : ToolSource) : string :=
  orElse (title source) (fun t => t) (uri source).

(** [sources.map(...)]; the first label that throws aborts the render. *)
Fixpoint renderSources (sources : list ToolSource) : option (list Anchor) :=
  match sources with
  | [] => Some []
  | source :: rest =>
      match sourceLabel source with
      | Some l =>
          match renderSources rest with
          | Some anchors =>
              Some ({| href := uri source; tooltip := sourceTooltip source;
                       label := l |} :: anchors)
          | None => None
          end
      | None => None
      end
  end.

End WithURL.

(** A stand-in for the platform's URL parser, used only to evaluate
    examples: the host of an [http://] or [https://] URL without
    credentials, that is the text between the scheme and the first of
    [/], [:], [?], [#]. *)
Fixpoint hostChars (s : string) : string :=
  match s with
  | EmptyString => EmptyString
  | String c r =>
      if (Ascii.eqb c "/" || Ascii.eqb c ":" || Ascii.eqb c "?" || Ascii.eqb c "#")%bool
      then EmptyString
      else String c (hostChars r)
  end.

Definition httpHostname (u : string) : option string :=
  let after (p : string) :=
    substring (String.length p) (String.length u - String.length p)%nat u in
  let host :=
    if JsString.startsWith "https://" u then Some (hostChars (after "https://"))
    else if JsString.startsWith "http://" u then Some (hostChars (after "http://"))
    else None in
  match host with
  | Some EmptyString => None
  | h => h
  end.

End ChatWindow.

(* ================================================================== *)
(** ** Observations used in the statements *)
(* ================================================================== *)

Definition capabilityOfCall (e : Event) : option Capability :=
  match e with
  | CallStandard _ _ => Some CapStandard
  | CallSearchGrounded _ => Some CapSearchGrounded
  | CallFast _ => Some CapFast
  | _ => None
  end.

Definition promptOfCall (e : Event) : option string :=
  match e with
  | CallStandard p _ | CallSearchGrounded p | CallFast p => Some p
  | _ => None
  end.

Definition attachmentOfCall (e : Event) : option FileData :=
  match e with
  | CallStandard _ fd => fd
  | _ => None
  end.

(** Anything that reaches the gateway adapter or the SDK behind it. *)
Definition isGatewayEvent (e : Event) : bool :=
  match e with
  | CallStandard _ _ | CallSearchGrounded _ | CallFast _
  | NewGoogleGenAI | SdkGenerateContent _ => true
  | _ => false
  end.

Definition isCapabilityCall (e : Event) : bool :=
  match capabilityOfCall e with Some _ => true | None => false end.

Definition isOpenSelectKey (e : Event) : bool :=
  match e with OpenSelectKey => true | _ => false end.

Definition isRevokeOf (u : string) (e : Event) : bool :=
  match e with RevokeObjectURL v => String.eqb u v | _ => false end.

Definition isCreateOf (u : string) (e : Event) : bool :=
  match e with CreateObjectURL v => String.eqb u v | _ => false end.

Definition count (p : Event -> bool) (es : list Event) : nat :=
  List.length (filter p es).

Definition gatewayEvents (w : World) : list Event := filter isGatewayEvent (trace w).
Definition reselections (w : World) : nat := count isOpenSelectKey (trace w).
Definition revocations (u : string) (w : World) : nat := count (isRevokeOf u) (trace w).

Definition carriesInlineData (req : GenerateContentParameters) : bool :=
  match contents req with
  | ContentsParts parts =>
      existsb (fun p => match p with InlineDataPart _ _ => true | TextPart _ => false end) parts
  | ContentsPrompt _ => false
  end.

(** The value of the local [fileData] once the attachment has been read. *)
Definition fileDataOf (file : option File) : option FileData :=
  match file with
  | Some f =>
      match fileToBase64 f with
      | inr d => Some {| data := d; mimeType := file_type f |}
      | inl _ => None
      end
  | None => None
  end.

Definition decodeFails (file : option File) : bool :=
  match file with
  | Some f => match fileToBase64 f with inl _ => true | inr _ => false end
  | None => false
  end.

(** Whether the turn gets as far as calling a capability: the attachment,
    if any, was read, and the [switch] did not take an advisory arm. *)
Definition reachesGateway (mode : ChatMode) (file : option File) : bool :=
  negb (decodeFails file)
  && (isMultimodalMode mode
      || match file with None => true | Some _ => false end).

(** The capability call that the [switch] makes for [mode], on its own. *)
Definition callCapability (env : Env) (mode : ChatMode) (text : string)
           (fileData : option FileData) : M Generated :=
  match mode with
  | Standard => generateContentStandard env text fileData
  | SearchGrounded => generateContentSearchGrounded env text
  | FastResponse => generateContentFast env text
  end.

(** How that call completes; it does not depend on the state it starts in
    (lemma [callCapability_outcome]). *)
Definition gatewayOutcome (env : Env) (mode : ChatMode) (text : string)
           (fileData : option FileData) : Completion Generated :=
  fst (callCapability env mode text fileData initialWorld).

(** The mode table as the specification states it; the code has it only as
    the arms of the [switch]. *)
Definition policyCapability (mode : ChatMode) : Capability :=
  match mode with
  | Standard => CapStandard
  | SearchGrounded => CapSearchGrounded
  | FastResponse => CapFast
  end.

Definition modelOf (c : Capability) : string :=
  match c with
  | CapStandard => "gemini-3-pro-preview"
  | CapSearchGrounded => "gemini-3-flash-preview"
  | CapFast => "gemini-flash-lite-latest"
  end.

Definition advisoryText (mode : ChatMode) : string :=
  match mode with
  | SearchGrounded => searchAdvisoryText
  | FastResponse => fastAdvisoryText
  | Standard => EmptyString
  end.

Definition isImage (file : option File) : bool :=
  match file with
  | Some f => JsString.startsWith "image/" (file_type f)
  | None => true
  end.

(** The flag is set exactly while one turn is suspended. *)
Definition flightInvariant (w : World) : Prop :=
  (isLoading w = false /\ pending w = [])
  \/ (isLoading w = true /\ exists t, pending w = [t]).

(** Whatever is selected in the form or was handed to a turn is an image. *)
Definition imageInvariant (w : World) : Prop :=
  isImage (selectedFile (input w)) = true
  /\ Forall (fun t => isImage (turn_file t) = true) (pending w).

(* ================================================================== *)
(** ** Sample inputs *)
(* ================================================================== *)

Module Sample.

Definition response : GenerateContentResponse :=
  {| response_text := Some "A red square.";
     groundingChunks := None |}.

Definition uuid (n : nat) : string := "msg-" ++ NilEmpty.string_of_uint (Nat.to_uint n).

(** The SDK answers every request. *)
Definition answering : Env :=
  {| randomUUID := uuid; now := Z.of_nat; genai_ctor := None;
     generateContent := fun _ => SdkResolves response;
     openSelectKey := Some SelectKeyResolves |}.

(** The API rejects the request with the credential message. *)
Definition sdkNotFound : Env :=
  {| randomUUID := uuid; now := Z.of_nat; genai_ctor := None;
     generateContent := fun _ => SdkRejects (Error "Requested entity was not found.");
     openSelectKey := Some SelectKeyResolves |}.

Definition png : File :=
  {| file_type := "image/png";
     file_reader := ReaderLoadString "data:image/png;base64,iVBORw0KGgo=" |}.

Definition unreadablePng : File :=
  {| file_type := "image/png"; file_reader := ReaderFailure |}.

Definition pdf : File :=
  {| file_type := "application/pdf";
     file_reader := ReaderLoadString "data:application/pdf;base64,JVBERi0=" |}.

Definition longSource : ToolSource :=
  {| uri := "https://example.com/articles/2024/a-very-long-path-to-a-page";
     title := None |}.

Definition shortSource : ToolSource :=
  {| uri := "https://example.com/a"; title := None |}.

Definition blankTitleSource : ToolSource :=
  {| uri := "https://example.com/a"; title := Some "" |}.

End Sample.

(* ================================================================== *)
(** ** Further parts of the components *)
(* ================================================================== *)

(** The request each capability hands to [ai.models.generateContent]. *)
Definition requestFor (mode : ChatMode) (prompt : string) (fileData : option FileData)
  : GenerateContentParameters :=
  match mode with
  | Standard =>
      {| model := "gemini-3-pro-preview";
         contents :=
           ContentsParts
             (TextPart prompt
                :: match fileData with
                   | Some fd => [InlineDataPart (mimeType fd) (data fd)]
                   | None => []
                   end);
         config := NoConfig |}
  | SearchGrounded =>
      {| model := "gemini-3-flash-preview"; contents := ContentsPrompt prompt;
         config := GoogleSearchTool |}
  | FastResponse =>
      {| model := "gemini-flash-lite-latest"; contents := ContentsPrompt prompt;
         config := ThinkingBudget 0 |}
  end.

(** The message of the [Error] each capability throws from its [catch]. *)
Definition failureText (mode : ChatMode) : string :=
  match mode with
  | Standard =>
      "Failed to get response from gemini-3-pro-preview. Check console for details."
  | SearchGrounded =>
      "Failed to get search-grounded response from gemini-3-flash-preview. Check console for details."
  | FastResponse =>
      "Failed to get fast response from gemini-flash-lite-latest. Check console for details."
  end.

Definition isSdkRequest (e : Event) : bool :=
  match e with SdkGenerateContent _ => true | _ => false end.

Definition isConsoleError (e : Event) : bool :=
  match e with ConsoleError _ => true | _ => false end.

(** Number of code units of [s] equal to [c]. *)
Fixpoint occurrences (c : ascii) (s : string) : nat :=
  match s with
  | EmptyString => 0
  | String d r => (if Ascii.eqb d c then 1 else 0) + occurrences c r
  end.

(** The source built from a web chunk, a place and a review snippet. *)
Definition webSource (wc : WebChunk) : ToolSource :=
  {| uri := web_uri wc; title := web_title wc |}.
Definition placeSource (mc : MapsChunk) : ToolSource :=
  {| uri := maps_uri mc; title := maps_title mc |}.
Definition reviewSource (s : ReviewSnippet) : ToolSource :=
  {| uri := snippet_uri s; title := snippet_text s |}.

(** [a || b] yields [b]: [a] is [undefined] or the empty string. *)
Definition falsyTitle (source : ToolSource) : Prop :=
  title source = None \/ title source = Some EmptyString.

Module MessageInputView.

Definition newline : ascii := ascii_of_nat 10.

(** [rows={inputText.split('\n').length > 1
           ? Math.min(5, inputText.split('\n').length) : 1}] *)
Definition textareaRows (inputText : string) : nat :=
  let n := List.length (JsString.split newline inputText) in
  if (1 <? n)%nat then Nat.min 5 n else 1%nat.

(** [disabled={isLoading || (!inputText.trim() && !selectedFile)}] of the
    send button. *)
Definition submitDisabled (w : World) : bool :=
  isLoading w
  || (negb (JsString.truthy (JsString.trim (inputText (input w))))
      && negb (match selectedFile (input w) with Some _ => true | None => false end)).

(** [if (e.key === 'Enter' && !e.shiftKey) { e.preventDefault(); handleSubmit(e); }] *)
Definition handleKeyPress (key : string) (shiftKey : bool)
           (onSendMessage : string -> option File -> M unit) : M unit :=
  if (String.eqb key "Enter" && negb shiftKey)%bool
  then MessageInput.handleSubmit onSendMessage
  else ret tt.

End MessageInputView.

Module ChatWindowView.

Section WithURL.

Variable hostname : string -> option string.

(** [{message.sources && message.sources.length > 0 && renderSources(message.sources)}]:
    [Some None] renders no block, [None] is a render that throws. *)
Definition sourcesBlock (message : Message) : option (option (list ChatWindow.Anchor)) :=
  match sources message with
  | Some (s :: rest) =>
      match ChatWindow.renderSources hostname (s :: rest) with
      | Some anchors => Some (Some anchors)
      | None => None
      end
  | _ => Some None
  end.

End WithURL.

End ChatWindowView.

(** A preview is kept exactly while a file is selected, and it is an
    object URL that was created. *)
Definition formInvariant (w : World) : Prop :=
  match selectedFile (input w), inputPreviewUrl (input w) with
  | Some _, Some u => exists n, (n < blobs w)%nat /\ u = blobUrl n
  | None, None => True
  | _, _ => False
  end.

(** Only user turns carry an image, only AI turns carry sources. *)
Definition turnWellFormed (m : Message) : Prop :=
  match sender m with
  | user => sources m = None
  | ai => imageUrl m = None
  end.

Definition isResume (ev : Session.UiEvent) : bool :=
  match ev with Session.Resume _ _ => true | _ => false end.

Definition isSubmit (ev : Session.UiEvent) : bool :=
  match ev with Session.Submit => true | _ => false end.

(** The preview of the form, and every object URL yet to be created, has
    never been revoked. *)
Definition liveInvariant (w : World) : Prop :=
  (forall u, inputPreviewUrl (input w) = Some u -> revocations u w = 0%nat)
  /\ (forall n, (blobs w <= n)%nat -> revocations (blobUrl n) w = 0%nat).

(** The text of every suspended turn and of every user turn of the log is
    free of leading and trailing white space. *)
Definition turnsTrimmed (w : World) : Prop :=
  Forall (fun t => JsString.trim (turn_text t) = turn_text t) (pending w)
  /\ Forall (fun m => sender m = user -> JsString.trim (text m) = text m)
            (messages w).

Module MoreSamples.

(** The SDK rejects every request with a network error. *)
Definition sdkDown : Env :=
  {| randomUUID := Sample.uuid; now := Z.of_nat; genai_ctor := None;
     generateContent := fun _ => SdkRejects (Error "fetch failed");
     openSelectKey := Some SelectKeyResolves |}.

(** No API key is configured: the client cannot be constructed. *)
Definition noApiKey : Env :=
  {| randomUUID := Sample.uuid; now := Z.of_nat;
     genai_ctor := Some "An API Key must be set when running in a browser";
     generateContent := fun _ => SdkResolves Sample.response;
     openSelectKey := Some SelectKeyResolves |}.

End MoreSamples.

(* ================================================================== *)
(** ** Facts about the string primitives *)
(* ================================================================== *)

Module JsStringFacts.
Import JsString.

Lemma trimStart_allWhiteSpace s : allWhiteSpace s -> trimStart s = EmptyString.
Proof.
  induction s as [|c r IH]; intros Hws; [reflexivity|].
  cbn [trimStart]. rewrite (Hws c) by (left; reflexivity).
  apply IH. intros d Hd. apply Hws. right. exact Hd.
Qed.

Lemma trim_allWhiteSpace s : allWhiteSpace s -> trim s = EmptyString.
Proof. intros H. unfold trim. rewrite trimStart_allWhiteSpace by exact H. reflexivity. Qed.

Lemma startsWith_app p s : startsWith p (p ++ s) = true.
Proof.
  induction p as [|a p IH]; [reflexivity|].
  cbn. rewrite Ascii.eqb_refl. exact IH.
Qed.

Lemma startsWith_inv p s : startsWith p s = true -> exists r, s = p ++ r.
Proof.
  revert s. induction p as [|a p IH]; intros s H.
  - exists s. reflexivity.
  - destruct s as [|b s]; [discriminate|]. cbn in H.
    apply andb_true_iff in H. destruct H as [Hab Hps].
    apply Ascii.eqb_eq in Hab. subst b.
    destruct (IH _ Hps) as [r ->]. exists r. reflexivity.
Qed.

(** [includes] is the substring test. *)
Lemma includes_spec needle s :
  includes needle s = true <-> exists a b, s = a ++ needle ++ b.
Proof.
  split.
  - induction s as [|c r IH]; cbn [includes]; intros H.
    + rewrite orb_false_r in H. apply startsWith_inv in H.
      destruct H as [b Hb]. exists EmptyString, b. exact Hb.
    + apply orb_true_iff in H. destruct H as [H|H].
      * apply startsWith_inv in H. destruct H as [b Hb].
        exists EmptyString, b. exact Hb.
      * destruct (IH H) as (a & b & ->). exists (String c a), b. reflexivity.
  - intros (a & b & ->). induction a as [|c a IH].
    + cbn [append]. destruct (needle ++ b) eqn:E.
      * cbn [includes]. rewrite <- E, startsWith_app. reflexivity.
      * cbn [includes]. rewrite <- E, startsWith_app. reflexivity.
    + cbn [append includes]. rewrite IH. apply orb_true_r.
Qed.

Lemma truthy_trim_allWhiteSpace s : allWhiteSpace s -> truthy (trim s) = false.
Proof. intros H. rewrite trim_allWhiteSpace by exact H. reflexivity. Qed.

End JsStringFacts.

(* ================================================================== *)
(** ** Proof support *)
(* ================================================================== *)

Open Scope list_scope.

Arguments JsString.includes : simpl never.
Arguments JsString.truthy : simpl never.
Arguments JsString.trim : simpl never.
Arguments JsString.split : simpl never.
Arguments JsString.startsWith : simpl never.
Arguments blobUrl : simpl never.
Arguments String.append : simpl never.
Arguments count : simpl never.

Lemma truthy_blobUrl n : JsString.truthy (blobUrl n) = true.
Proof. reflexivity. Qed.

Lemma count_app p es es' : count p (es ++ es') = count p es + count p es'.
Proof. unfold count. rewrite filter_app, length_app. reflexivity. Qed.

(** Unfold one turn down to the oracles it consults. *)
Ltac unfold_turn :=
  unfold handleSendMessage, sendMessageSteps, readAttachment, dispatch,
    onGatewayError, reselectCredential, revokeIfSet, await,
    callCapability,
    generateContentStandard, generateContentSearchGrounded, generateContentFast,
    getGenAIClient, models_generateContent, appendMessage,
    function_body, try_finally, try_catch, when,
    URL_createObjectURL, URL_revokeObjectURL, console_error,
    crypto_randomUUID, new_Date, setMessages, setIsLoading,
    emit, modify, throw, return_, bind, ret.

Ltac unfold_observations :=
  unfold gatewayEvents, reselections, revocations, count;
  cbn [trace messages isLoading input pending currentMode ticks blobs
       with_messages with_isLoading with_event with_tick with_blob
       with_input with_pending with_currentMode fst snd];
  repeat rewrite !filter_app;
  cbn [filter isGatewayEvent isOpenSelectKey isRevokeOf isCapabilityCall
       capabilityOfCall];
  repeat rewrite ?app_nil_r, ?length_app.

Lemma handleSendMessage_unfold env mode txt file w :
  handleSendMessage env mode txt file w
  = function_body (sendMessageSteps env mode txt file) (with_isLoading true w).
Proof. reflexivity. Qed.

(* ================================================================== *)
(** ** Attachment decoding fails *)
(* ================================================================== *)

(** C5.  When the attachment of a submission cannot be decoded, the call
    returns after appending one AI-authored error turn: nothing reaches
    the gateway and the flight flag is cleared. *)
Theorem decode_failure_aborts_before_gateway env mode txt f e w :
  fileToBase64 f = inl e ->
  let r := handleSendMessage env mode txt (Some f) w in
  fst r = Normal tt
  /\ (exists m, messages (snd r) = messages w ++ [m]
                /\ sender m = ai /\ text m = decodeErrorText)
  /\ gatewayEvents (snd r) = gatewayEvents w
  /\ isLoading (snd r) = false.
Proof.
  intros Hdecode. unfold_turn. rewrite Hdecode. cbn.
  repeat split.
  - eexists. split; [reflexivity|]. split; reflexivity.
  - unfold_observations. reflexivity.
Qed.

Lemma decode_failure_aborts_before_gateway_witness :
  let r := handleSendMessage Sample.answering SearchGrounded "weather today"
             (Some Sample.unreadablePng) initialWorld in
  fst r = Normal tt
  /\ (exists m, messages (snd r) = messages initialWorld ++ [m]
                /\ sender m = ai /\ text m = decodeErrorText)
  /\ gatewayEvents (snd r) = gatewayEvents initialWorld
  /\ isLoading (snd r) = false.
Proof.
  apply (decode_failure_aborts_before_gateway Sample.answering SearchGrounded
           "weather today" Sample.unreadablePng ProgressEvent initialWorld).
  reflexivity.
Defined.

(** Case analysis on everything the outside world decides in a turn. *)
Ltac split_oracles :=
  repeat match goal with
    | |- context [match ?x with _ => _ end] =>
        lazymatch x with
        | context [match _ with _ => _ end] => fail
        | _ => destruct x eqn:?
        end
    | |- context [if ?x then _ else _] =>
        lazymatch x with
        | context [match _ with _ => _ end] => fail
        | context [if _ then _ else _] => fail
        | _ => destruct x eqn:?
        end
    end.

(** C9.  When decoding fails the log gains exactly one turn, authored by
    the AI, and neither the user's text nor a preview of the attachment
    is recorded; on every other path the first turn the log gains is the
    user's, followed by AI turns only. *)
Theorem decode_failure_records_no_user_turn env mode txt file w :
  let w' := snd (handleSendMessage env mode txt file w) in
  if decodeFails file then
    (exists m, messages w' = messages w ++ [m]
               /\ sender m = ai /\ text m = decodeErrorText /\ imageUrl m = None)
    /\ blobs w' = blobs w
  else
    exists mu rest, messages w' = messages w ++ mu :: rest
                    /\ sender mu = user /\ text mu = txt
                    /\ Forall (fun m => sender m = ai) rest.
Proof.
  unfold decodeFails.
  destruct file as [f|]; [destruct (fileToBase64 f) eqn:Hdecode|].
  - unfold_turn. rewrite Hdecode. cbn. split; [|reflexivity].
    eexists. repeat split; reflexivity.
  - unfold_turn. rewrite Hdecode.
    destruct mode; destruct (genai_ctor env) eqn:?; cbn; split_oracles; cbn;
      rewrite ?truthy_blobUrl; cbn; rewrite <- ?app_assoc; cbn;
      do 2 eexists; (split; [reflexivity|]); repeat split; auto.
  - unfold_turn.
    destruct mode; destruct (genai_ctor env) eqn:?; cbn; split_oracles; cbn;
      rewrite <- ?app_assoc; cbn;
      do 2 eexists; (split; [reflexivity|]); repeat split; auto.
Qed.

(* ================================================================== *)
(** ** Attachment under a text-only mode *)
(* ================================================================== *)

(** C1, as amended.  In a mode that takes no attachment (Search Grounded,
    Fast Response), a submission whose attachment decodes appends exactly
    one user turn followed by exactly one AI-authored advisory turn for
    that mode, and nothing reaches the gateway. *)
Theorem advisory_turn_when_attachment_disallowed env mode txt f d w :
  isMultimodalMode mode = false ->
  fileToBase64 f = inr d ->
  let w' := snd (handleSendMessage env mode txt (Some f) w) in
  (exists mu ma, messages w' = messages w ++ [mu; ma]
                 /\ sender mu = user /\ text mu = txt
                 /\ imageUrl mu = Some (blobUrl (blobs w))
                 /\ sender ma = ai /\ text ma = advisoryText mode)
  /\ gatewayEvents w' = gatewayEvents w.
Proof.
  intros Hmode Hdecode. unfold_turn. rewrite Hdecode.
  destruct mode; [discriminate| |]; cbn; rewrite truthy_blobUrl; cbn;
    rewrite <- app_assoc; cbn.
  all: split; [do 2 eexists; split; [reflexivity|]; repeat split
              | unfold_observations; reflexivity].
Qed.

Lemma advisory_turn_when_attachment_disallowed_witness :
  let w' := snd (handleSendMessage Sample.answering SearchGrounded "weather today"
                   (Some Sample.png) initialWorld) in
  (exists mu ma, messages w' = messages initialWorld ++ [mu; ma]
                 /\ sender mu = user /\ text mu = "weather today"%string
                 /\ imageUrl mu = Some (blobUrl (blobs initialWorld))
                 /\ sender ma = ai /\ text ma = advisoryText SearchGrounded)
  /\ gatewayEvents w' = gatewayEvents initialWorld.
Proof.
  apply (advisory_turn_when_attachment_disallowed Sample.answering SearchGrounded
           "weather today" Sample.png (Some "iVBORw0KGgo="%string) initialWorld);
    reflexivity.
Defined.

(** C1 as stated fails: under Search Grounded, an attachment that cannot
    be read leaves a single AI error turn and no user turn. *)
Lemma advisory_turn_unreadable_attachment_counterexample :
  let w' := snd (handleSendMessage Sample.answering SearchGrounded "weather today"
                   (Some Sample.unreadablePng) initialWorld) in
  isMultimodalMode SearchGrounded = false
  /\ map (fun m => (sender m, text m)) (messages w') = [(ai, decodeErrorText)]
  /\ ~ (exists mu ma, messages w' = messages initialWorld ++ [mu; ma]).
Proof.
  split; [reflexivity|]. split; [reflexivity|].
  intros (mu & ma & H). vm_compute in H. discriminate H.
Qed.

(* ================================================================== *)
(** ** Release of the preview URL *)
(* ================================================================== *)

(** How often a turn that created a preview URL revokes it: once when the
    gateway is called, twice on the advisory branch, where the explicit
    revoke before [return] is followed by the one in [finally]. *)
Lemma preview_release_count env mode txt f d w :
  fileToBase64 f = inr d ->
  let u := blobUrl (blobs w) in
  let w' := snd (handleSendMessage env mode txt (Some f) w) in
  count (isCreateOf u) (trace w') = count (isCreateOf u) (trace w) + 1
  /\ revocations u w'
     = revocations u w + (if isMultimodalMode mode then 1 else 2).
Proof.
  intros Hdecode u. subst u. unfold revocations. unfold_turn. rewrite Hdecode.
  destruct mode; destruct (genai_ctor env) eqn:?; cbn;
    rewrite ?truthy_blobUrl; cbn; split_oracles; cbn;
    rewrite ?count_app; unfold count;
    cbn [filter isRevokeOf isCreateOf]; rewrite ?String.eqb_refl; cbn; lia.
Qed.

(** C3, at the failing input.  A Search Grounded submission with a
    readable image creates one preview URL and revokes it twice. *)
Theorem advisory_branch_releases_preview_twice :
  let w' := snd (handleSendMessage Sample.answering SearchGrounded "weather today"
                   (Some Sample.png) initialWorld) in
  trace w' = [CreateObjectURL "blob:0"; RevokeObjectURL "blob:0";
              RevokeObjectURL "blob:0"]
  /\ revocations "blob:0" w' = 2.
Proof. split; reflexivity. Qed.

(* ================================================================== *)
(** ** Dispatch *)
(* ================================================================== *)

(** Name the events a turn added to the trace. *)
Ltac name_new_events :=
  rewrite <- ?app_assoc; cbn [app];
  eexists; split; [reflexivity|].

Ltac check_events :=
  repeat match goal with
    | |- _ /\ _ => split
    | |- forall _, _ => intro
    | H : In _ _ |- _ => cbn [In] in H
    | H : _ \/ _ |- _ => destruct H
    | H : False |- _ => destruct H
    | H : SdkGenerateContent _ = SdkGenerateContent _ |- _ => injection H as <-
    | H : _ = SdkGenerateContent _ |- _ => discriminate H
    | H : _ = ?e |- _ => is_var e; subst e
    | H : isCapabilityCall _ = true |- _ => cbn in H; discriminate H
    | H : carriesInlineData _ = true |- _ => cbn in H; discriminate H
    end;
  cbn; try congruence; auto.

(** C4.  A turn calls at most one capability, and only the one of its
    mode: Standard the multimodal one, Search Grounded the search one,
    Fast Response the fast one, each with the text of the turn.  The
    encoded attachment travels only in a Standard call; the requests of
    the other two capabilities consist of the prompt. *)
Theorem mode_dispatches_to_its_capability env mode txt file w :
  let w' := snd (handleSendMessage env mode txt file w) in
  exists es,
    trace w' = trace w ++ es
    /\ List.length (filter isCapabilityCall es)
       = (if reachesGateway mode file then 1 else 0)
    /\ (forall e, In e es -> isCapabilityCall e = true ->
          capabilityOfCall e = Some (policyCapability mode)
          /\ promptOfCall e = Some txt
          /\ attachmentOfCall e
             = (if isMultimodalMode mode then fileDataOf file else None))
    /\ (forall req, In (SdkGenerateContent req) es ->
          model req = modelOf (policyCapability mode)
          /\ (carriesInlineData req = true ->
                mode = Standard /\ fileDataOf file <> None)
          /\ (mode <> Standard -> contents req = ContentsPrompt txt)).
Proof.
  unfold reachesGateway, decodeFails, fileDataOf. unfold_turn.
  destruct file as [f|]; [destruct (fileToBase64 f) eqn:Hdecode|];
    destruct mode; destruct (genai_ctor env) eqn:?; cbn;
    rewrite ?truthy_blobUrl; cbn; split_oracles; cbn;
    name_new_events; check_events.
Qed.

Example standard_turn_with_image :
  let w' := snd (handleSendMessage Sample.answering Standard "Describe this"
                   (Some Sample.png) initialWorld) in
  map (fun m => (sender m, text m, imageUrl m, sources m)) (messages w')
  = [(user, "Describe this"%string, Some "blob:0"%string, None);
     (ai, "A red square."%string, None, Some [])]
  /\ filter isCapabilityCall (trace w')
     = [CallStandard "Describe this"
          (Some {| data := Some "iVBORw0KGgo="%string; mimeType := "image/png" |})]
  /\ revocations "blob:0" w' = 1
  /\ isLoading w' = false.
Proof. repeat split; reflexivity. Qed.

(* ================================================================== *)
(** ** Gateway failures *)
(* ================================================================== *)

Lemma callCapability_outcome env mode txt fd w :
  fst (callCapability env mode txt fd w) = gatewayOutcome env mode txt fd.
Proof.
  unfold gatewayOutcome. unfold_turn.
  destruct mode; destruct (genai_ctor env); cbn; split_oracles; reflexivity.
Qed.

(** A capability either resolves or throws an [Error]. *)
Lemma gatewayOutcome_cases env mode txt fd :
  (exists g, gatewayOutcome env mode txt fd = Normal g)
  \/ (exists m, gatewayOutcome env mode txt fd = Throws (Error m)).
Proof.
  unfold gatewayOutcome. unfold_turn.
  destruct mode; destruct (genai_ctor env); cbn; split_oracles; cbn;
    first [left; eexists; reflexivity | right; eexists; reflexivity].
Qed.

(** Decide [includes] where both strings are known. *)
Ltac eval_includes :=
  repeat match goal with
    | |- context [JsString.includes ?a ?b] =>
        let v := eval vm_compute in (JsString.includes a b) in
        lazymatch v with
        | true => change (JsString.includes a b) with true
        | false => change (JsString.includes a b) with false
        end
    end.

(** What the [catch] block makes of the error of a failed capability
    call, by the message that reaches it.  If the message contains the
    credential signature, the key dialog is opened once if the host
    provides one and not at all otherwise, and, unless that dialog itself
    fails, the AI turn carries the credential text.  For any other
    message the dialog is not opened and the AI turn reads "AI Error: "
    followed by the message, or the generic text when the message is
    empty. *)
Lemma gateway_failure_turn env mode txt file message w :
  reachesGateway mode file = true ->
  gatewayOutcome env mode txt (fileDataOf file) = Throws (Error message) ->
  let w' := snd (handleSendMessage env mode txt file w) in
  if JsString.includes credentialSignature message then
    reselections w'
    = reselections w + (match openSelectKey env with Some _ => 1 | None => 0 end)
    /\ ((forall e, openSelectKey env <> Some (SelectKeyRejects e)) ->
        exists mu ma, messages w' = messages w ++ [mu; ma]
                      /\ sender mu = user /\ text mu = txt
                      /\ sender ma = ai /\ text ma = credentialErrorText)
  else
    reselections w' = reselections w
    /\ exists mu ma, messages w' = messages w ++ [mu; ma]
                     /\ sender mu = user /\ text mu = txt
                     /\ sender ma = ai
                     /\ text ma = (if JsString.truthy message
                                   then ("AI Error: " ++ message)%string
                                   else genericErrorText).
Proof.
  unfold reachesGateway, decodeFails, gatewayOutcome, fileDataOf, reselections.
  unfold_turn.
  destruct file as [f|]; [destruct (fileToBase64 f) eqn:Hdecode|];
    destruct mode; cbn; try (intros Hreach; discriminate Hreach); intros _;
    destruct (genai_ctor env) eqn:?; cbn; rewrite ?truthy_blobUrl; cbn.
  all: try match goal with
         | |- context [generateContent ?e ?r] => destruct (generateContent e r) eqn:?
         end; cbn.
  all: intros Hout; try discriminate Hout; injection Hout as <-.
  all: eval_includes; cbn.
  all: split_oracles; cbn.
  all: rewrite ?count_app; cbn; rewrite ?Nat.add_0_r.
  all: rewrite <- ?app_assoc; cbn [app].
  all: try (split; [reflexivity|]).
  all: try (do 2 eexists; split; [reflexivity|]; repeat split; reflexivity).
  all: try (intros _; do 2 eexists; split; [reflexivity|]; repeat split; reflexivity).
  all: intros Hdialog; exfalso; eapply Hdialog; reflexivity.
Qed.

(** What the SDK call throws never reaches the orchestrator: each
    capability replaces it by a fixed message of its own, which does not
    contain the credential signature. *)
Lemma sdk_failure_message_is_replaced env mode txt fd e :
  genai_ctor env = None ->
  (forall req, generateContent env req = SdkRejects e) ->
  exists m, gatewayOutcome env mode txt fd = Throws (Error m)
            /\ JsString.includes credentialSignature m = false.
Proof.
  intros Hctor Hsdk. unfold gatewayOutcome. unfold_turn.
  destruct mode; rewrite Hctor; cbn; rewrite Hsdk; cbn;
    eexists; (split; [reflexivity|]); vm_compute; reflexivity.
Qed.

(** C2, at the failing input.  The host offers the key dialog and the SDK
    call of a Standard turn rejects with "Requested entity was not found.".
    The capability replaces that error by its own, so the orchestrator
    does not see the credential signature: the AI turn reads "AI Error: "
    followed by the text of the capability, not the credential text, and
    the key dialog is not opened. *)
Theorem credential_failure_is_masked_by_gateway :
  let env := Sample.sdkNotFound in
  let w' := snd (handleSendMessage env Standard "hello" None initialWorld) in
  generateContent env (requestFor Standard "hello" None)
  = SdkRejects (Error "Requested entity was not found.")
  /\ JsString.includes credentialSignature "Requested entity was not found." = true
  /\ openSelectKey env = Some SelectKeyResolves
  /\ gatewayOutcome env Standard "hello" None = Throws (Error (failureText Standard))
  /\ JsString.includes credentialSignature (failureText Standard) = false
  /\ map (fun m => (sender m, text m)) (messages w')
     = [(user, "hello"%string);
        (ai, "AI Error: Failed to get response from gemini-3-pro-preview. Check console for details."%string)]
  /\ existsb (fun m => String.eqb (text m) credentialErrorText) (messages w') = false
  /\ reselections w' = 0.
Proof. repeat split; vm_compute; reflexivity. Qed.

(* ================================================================== *)
(** ** The form and the flight flag *)
(* ================================================================== *)

Ltac unfold_form :=
  unfold MessageInput.handleSubmit, MessageInput.clearFile,
    MessageInput.handleFileChange, MessageInput.handleTextChange,
    MessageInput.setInputText, MessageInput.setSelectedFile,
    MessageInput.setFilePreviewUrl, MessageInput.read, Session.beginTurn,
    function_body, URL_createObjectURL, URL_revokeObjectURL, setIsLoading,
    emit, modify, return_, bind, ret.

(** Every exit of a turn leaves the flag cleared and touches neither the
    form, the mode, nor the suspended turns. *)
Lemma sendMessageSteps_exit env mode txt file w :
  let w' := snd (function_body (sendMessageSteps env mode txt file) w) in
  isLoading w' = false /\ input w' = input w /\ pending w' = pending w
  /\ currentMode w' = currentMode w.
Proof.
  unfold_turn.
  destruct file as [f|]; [destruct (fileToBase64 f)|];
    destruct mode; destruct (genai_ctor env); cbn;
    rewrite ?truthy_blobUrl; cbn; split_oracles; cbn; auto.
Qed.

(** A submission made while the flag is set changes nothing, whatever the
    callback. *)
Lemma handleSubmit_while_loading onSendMessage w :
  isLoading w = true ->
  MessageInput.handleSubmit onSendMessage w = (Normal tt, w).
Proof. intros H. unfold_form. rewrite H. reflexivity. Qed.

(** What a submission does when the flag is clear. *)
Lemma step_submit_idle w :
  isLoading w = false ->
  let w' := Session.step w Session.Submit in
  w' = w
  \/ (isLoading w' = true
      /\ pending w'
         = pending w ++ [{| turn_mode := currentMode w;
                            turn_text := JsString.trim (inputText (input w));
                            turn_file := selectedFile (input w) |}]
      /\ selectedFile (input w') = None).
Proof.
  intros H. unfold Session.step. unfold_form. rewrite H. cbn.
  destruct (JsString.truthy (JsString.trim (inputText (input w)))
            || match selectedFile (input w) with Some _ => true | None => false end);
    cbn; [right | left; reflexivity].
  destruct (inputPreviewUrl (input w)) as [u|]; cbn;
    [destruct (JsString.truthy u); cbn|]; auto.
Qed.

(** The handlers of the form other than submission leave flag and
    suspended turns alone. *)
Lemma form_event_keeps_flight w ev :
  match ev with
  | Session.TypeText _ | Session.ChooseFile _ | Session.ClearFile
  | Session.ChangeMode _ => True
  | _ => False
  end ->
  isLoading (Session.step w ev) = isLoading w
  /\ pending (Session.step w ev) = pending w.
Proof.
  destruct ev as [v|file| | |m|env i]; intros H; try destruct H;
    unfold Session.step; unfold_form; cbn.
  - auto.
  - destruct file as [f|]; cbn; [|auto].
    destruct (JsString.startsWith "image/" (file_type f)); cbn; auto.
  - destruct (inputPreviewUrl (input w)) as [u|]; cbn;
      [destruct (JsString.truthy u); cbn|]; auto.
  - auto.
Qed.

Lemma step_resume w env i :
  let w' := Session.step w (Session.Resume env i) in
  match nth_error (pending w) i with
  | Some _ =>
      isLoading w' = false /\ input w' = input w
      /\ pending w' = Session.remove_nth i (pending w)
  | None => w' = w
  end.
Proof.
  unfold Session.step, Session.resumeTurn.
  destruct (nth_error (pending w) i) as [t|]; [|reflexivity].
  destruct (sendMessageSteps_exit env (turn_mode t) (turn_text t) (turn_file t)
              (with_pending (Session.remove_nth i) w)) as (Hl & Hi & Hp & _).
  auto.
Qed.

(** Suspending a turn at submission and resuming it later ends in the
    state that the whole call of [handleSendMessage] reaches from the
    cleared form. *)
Lemma submit_then_resume env w :
  isLoading w = false ->
  pending w = [] ->
  (JsString.truthy (JsString.trim (inputText (input w)))
   || match selectedFile (input w) with Some _ => true | None => false end) = true ->
  Session.step (Session.step w Session.Submit) (Session.Resume env 0)
  = snd (handleSendMessage env (currentMode w)
           (JsString.trim (inputText (input w))) (selectedFile (input w))
           (snd ((MessageInput.setInputText "" ;; MessageInput.clearFile) w))).
Proof.
  intros Hl Hp Hguard.
  rewrite handleSendMessage_unfold.
  unfold Session.step at 1. unfold Session.resumeTurn.
  set (rest := fun t => function_body
                 (sendMessageSteps env (turn_mode t) (turn_text t) (turn_file t))).
  change (function_body (sendMessageSteps env (currentMode w)
            (JsString.trim (inputText (input w))) (selectedFile (input w))))
    with (rest {| turn_mode := currentMode w;
                  turn_text := JsString.trim (inputText (input w));
                  turn_file := selectedFile (input w) |}).
  unfold Session.step. unfold_form. rewrite Hl. cbn -[rest].
  rewrite Hguard. cbn -[rest].
  destruct (inputPreviewUrl (input w)) as [u|]; cbn -[rest];
    [destruct (JsString.truthy u); cbn -[rest]|]; rewrite Hp; cbn -[rest];
    f_equal; f_equal;
    unfold with_pending, with_isLoading, with_input, with_event; cbn;
    rewrite ?Hp; reflexivity.
Qed.

Lemma step_keeps_flightInvariant w ev :
  flightInvariant w -> flightInvariant (Session.step w ev).
Proof.
  intros Hinv.
  destruct ev as [v|file| | |m|env i].
  1-3, 5: (match goal with
            | |- flightInvariant (Session.step _ ?ev) =>
                destruct (form_event_keeps_flight w ev I) as [Hl Hp]
            end;
            unfold flightInvariant; rewrite Hl, Hp; exact Hinv).
  - destruct Hinv as [[Hl Hp]|[Hl Hp]].
    + destruct (step_submit_idle w Hl) as [->|(Hl' & Hp' & _)].
      * left; auto.
      * right. split; [exact Hl'|]. rewrite Hp', Hp. eexists. reflexivity.
    + unfold Session.step. rewrite handleSubmit_while_loading by exact Hl.
      right; auto.
  - pose proof (step_resume w env i) as H. cbv zeta in H.
    destruct Hinv as [[Hl Hp]|[Hl [t Hp]]].
    + rewrite Hp in H. destruct i; cbn [nth_error] in H; rewrite H; left; auto.
    + rewrite Hp in H. destruct i as [|i]; cbn [nth_error Session.remove_nth] in H.
      * destruct H as (Hl' & _ & Hp'). left; auto.
      * destruct i; cbn [nth_error] in H; rewrite H; right; eauto.
Qed.

Lemma run_from_keeps_flightInvariant evs w :
  flightInvariant w -> flightInvariant (fold_left Session.step evs w).
Proof.
  revert w. induction evs as [|ev evs IH]; intros w Hinv; [exact Hinv|].
  cbn [fold_left]. apply IH. apply step_keeps_flightInvariant. exact Hinv.
Qed.

(** C7.  In every state the session can reach at most one turn is
    suspended, the flight flag is set exactly while one is, and a
    submission made while it is set is dropped: the state, the suspended
    turns included, stays as it was and the handler completes normally. *)
Theorem at_most_one_turn_in_flight evs :
  let w := Session.run evs in
  List.length (pending w) <= 1
  /\ (isLoading w = true <-> List.length (pending w) = 1)
  /\ (isLoading w = true ->
      Session.step w Session.Submit = w
      /\ forall onSendMessage,
           MessageInput.handleSubmit onSendMessage w = (Normal tt, w)).
Proof.
  assert (Hinv : flightInvariant (Session.run evs)).
  { apply run_from_keeps_flightInvariant. left. split; reflexivity. }
  cbv zeta. split; [|split].
  - destruct Hinv as [[_ ->]|[_ [t ->]]]; cbn; lia.
  - destruct Hinv as [[Hl ->]|[Hl [t ->]]]; cbn; rewrite Hl; split; intros H;
      first [reflexivity | discriminate H].
  - intros Hl. split.
    + unfold Session.step. rewrite handleSubmit_while_loading by exact Hl. reflexivity.
    + intros onSendMessage. apply handleSubmit_while_loading. exact Hl.
Qed.

Lemma at_most_one_turn_in_flight_witness :
  let w := Session.run [Session.TypeText "hi"; Session.Submit] in
  isLoading w = true
  /\ pending w = [{| turn_mode := Standard; turn_text := "hi"; turn_file := None |}]
  /\ List.length (pending w) = 1
  /\ Session.step w Session.Submit = w.
Proof.
  pose proof (at_most_one_turn_in_flight [Session.TypeText "hi"; Session.Submit])
    as H.
  cbv zeta in H. destruct H as (_ & Hone & Hdrop).
  assert (Hl : isLoading (Session.run [Session.TypeText "hi"; Session.Submit]) = true)
    by reflexivity.
  split; [exact Hl|]. split; [reflexivity|].
  split; [apply Hone; exact Hl | apply (Hdrop Hl)].
Defined.

(** C6.  A submission whose text is empty or consists of white space,
    with no file selected, does nothing: the callback is not called, the
    log keeps its length, nothing reaches the gateway and no turn is
    started. *)
Theorem blank_submission_is_noop onSendMessage w :
  JsString.allWhiteSpace (inputText (input w)) ->
  selectedFile (input w) = None ->
  MessageInput.handleSubmit onSendMessage w = (Normal tt, w)
  /\ let w' := Session.step w Session.Submit in
     List.length (messages w') = List.length (messages w)
     /\ gatewayEvents w' = gatewayEvents w
     /\ pending w' = pending w.
Proof.
  intros Hblank Hfile.
  assert (Hnoop : forall k, MessageInput.handleSubmit k w = (Normal tt, w)).
  { intros k. unfold_form. cbn.
    destruct (isLoading w); cbn; [reflexivity|].
    rewrite (JsStringFacts.truthy_trim_allWhiteSpace _ Hblank), Hfile.
    reflexivity. }
  split; [apply Hnoop|].
  unfold Session.step. rewrite Hnoop. cbn. auto.
Qed.

Lemma blank_submission_is_noop_witness :
  let w := Session.step initialWorld (Session.TypeText " ") in
  MessageInput.handleSubmit (handleSendMessage Sample.answering Standard) w
  = (Normal tt, w)
  /\ let w' := Session.step w Session.Submit in
     List.length (messages w') = List.length (messages w)
     /\ gatewayEvents w' = gatewayEvents w
     /\ pending w' = pending w.
Proof.
  apply (blank_submission_is_noop (handleSendMessage Sample.answering Standard)
           (Session.step initialWorld (Session.TypeText " "))).
  - intros c Hc. cbn in Hc. destruct Hc as [<-|[]]. reflexivity.
  - reflexivity.
Defined.

(* ================================================================== *)
(** ** Only images are attached *)
(* ================================================================== *)

Lemma Forall_remove_nth {A} (P : A -> Prop) i l :
  Forall P l -> Forall P (Session.remove_nth i l).
Proof.
  intros H. revert i. induction H as [|x l Hx Hl IH]; intros i.
  - destruct i; constructor.
  - destruct i; cbn; [exact Hl | constructor; [exact Hx | apply IH]].
Qed.

(** Choosing a file that is not an image clears the selection and alerts
    the user. *)
Lemma handleFileChange_rejects_non_image w f :
  JsString.startsWith "image/" (file_type f) = false ->
  let w' := Session.step w (Session.ChooseFile (Some f)) in
  selectedFile (input w') = None
  /\ inputPreviewUrl (input w') = None
  /\ trace w' = trace w ++ [Alert MessageInput.fileAlertText].
Proof.
  intros H. unfold Session.step. unfold_form. rewrite H. cbn. auto.
Qed.

Lemma step_keeps_imageInvariant w ev :
  imageInvariant w -> imageInvariant (Session.step w ev).
Proof.
  intros [Hsel Hpend]. unfold imageInvariant.
  destruct ev as [v|file| | |m|env i].
  - unfold Session.step; unfold_form; cbn. auto.
  - unfold Session.step; unfold_form.
    destruct file as [f|]; cbn; [|auto].
    destruct (JsString.startsWith "image/" (file_type f)) eqn:Himg; cbn; auto.
  - unfold Session.step; unfold_form; cbn.
    destruct (inputPreviewUrl (input w)) as [u|]; cbn;
      [destruct (JsString.truthy u); cbn|]; auto.
  - destruct (isLoading w) eqn:Hl.
    + unfold Session.step. rewrite handleSubmit_while_loading by exact Hl. auto.
    + destruct (step_submit_idle w Hl) as [->|(_ & Hp' & Hs')]; [auto|].
      rewrite Hs', Hp'. split; [reflexivity|].
      apply Forall_app. split; [exact Hpend|].
      constructor; [exact Hsel | constructor].
  - cbn. auto.
  - pose proof (step_resume w env i) as H. cbv zeta in H.
    destruct (nth_error (pending w) i).
    + destruct H as (_ & -> & ->). split; [exact Hsel|].
      apply Forall_remove_nth. exact Hpend.
    + rewrite H. auto.
Qed.

Lemma run_from_keeps_imageInvariant evs w :
  imageInvariant w -> imageInvariant (fold_left Session.step evs w).
Proof.
  revert w. induction evs as [|ev evs IH]; intros w Hinv; [exact Hinv|].
  cbn [fold_left]. apply IH. apply step_keeps_imageInvariant. exact Hinv.
Qed.

(** C10.  In every state the session can reach, the selected attachment
    is either absent or a file whose type starts with "image/", and so is
    the file of every turn that was handed to the orchestrator; choosing
    a file of another type clears the selection and raises the alert. *)
Theorem only_images_are_selected_or_sent evs :
  let w := Session.run evs in
  match selectedFile (input w) with
  | Some f => JsString.startsWith "image/" (file_type f) = true
  | None => True
  end
  /\ Forall (fun t => forall f, turn_file t = Some f ->
                      JsString.startsWith "image/" (file_type f) = true)
            (pending w)
  /\ forall f, JsString.startsWith "image/" (file_type f) = false ->
       let w' := Session.step w (Session.ChooseFile (Some f)) in
       selectedFile (input w') = None
       /\ trace w' = trace w ++ [Alert MessageInput.fileAlertText].
Proof.
  assert (Hinv : imageInvariant (Session.run evs)).
  { apply run_from_keeps_imageInvariant. split; [reflexivity | constructor]. }
  destruct Hinv as [Hsel Hpend]. cbv zeta. split; [|split].
  - destruct (selectedFile (input (Session.run evs))); [exact Hsel | exact I].
  - eapply Forall_impl; [|exact Hpend].
    intros t Ht f Hf. cbv beta in Ht. rewrite Hf in Ht. exact Ht.
  - intros f Hf.
    destruct (handleFileChange_rejects_non_image (Session.run evs) f Hf)
      as (H1 & _ & H2).
    auto.
Qed.

Lemma only_images_are_selected_or_sent_witness :
  let w := Session.run [Session.ChooseFile (Some Sample.png)] in
  let w' := Session.step w (Session.ChooseFile (Some Sample.pdf)) in
  selectedFile (input w) = Some Sample.png
  /\ selectedFile (input w') = None
  /\ trace w' = trace w ++ [Alert MessageInput.fileAlertText].
Proof.
  destruct (only_images_are_selected_or_sent [Session.ChooseFile (Some Sample.png)])
    as (_ & _ & Hreject).
  split; [reflexivity|]. apply (Hreject Sample.pdf). reflexivity.
Defined.

Example pdf_is_not_selected :
  let w := Session.run [Session.ChooseFile (Some Sample.png);
                        Session.ChooseFile (Some Sample.pdf);
                        Session.TypeText "read this"; Session.Submit] in
  pending w = [{| turn_mode := Standard; turn_text := "read this";
                  turn_file := None |}]
  /\ trace w = [CreateObjectURL "blob:0"; Alert MessageInput.fileAlertText].
Proof. split; reflexivity. Qed.

(* ================================================================== *)
(** ** Labels of the citation list *)
(* ================================================================== *)

Lemma orElse_cases {A} (a : option string) (k : string -> A) (b : A) :
  (forall t, a = Some t -> t <> EmptyString -> ChatWindow.orElse a k b = k t)
  /\ (a = None \/ a = Some EmptyString -> ChatWindow.orElse a k b = b).
Proof.
  unfold ChatWindow.orElse. split.
  - intros t -> Ht. destruct t; [congruence | reflexivity].
  - intros [->| ->]; reflexivity.
Qed.

(** C8, as amended.  Every anchor of a rendered citation list links to
    its source; its label is the title of the source when there is one
    and it is not empty, and otherwise the host name of the URI, followed
    by "..." when the URI is longer than 50 code units. *)
Theorem rendered_label_is_title_or_host hostname sources anchors :
  ChatWindow.renderSources hostname sources = Some anchors ->
  Forall2 (fun source a =>
             ChatWindow.href a = uri source
             /\ (forall t, title source = Some t -> t <> EmptyString ->
                   ChatWindow.label a = t)
             /\ (title source = None \/ title source = Some EmptyString ->
                   exists h, hostname (uri source) = Some h
                     /\ ChatWindow.label a
                        = (h ++ (if (50 <? String.length (uri source))%nat
                                 then "..." else ""))%string))
          sources anchors.
Proof.
  revert anchors. induction sources as [|source rest IH]; intros anchors H.
  - cbn in H. injection H as <-. constructor.
  - cbn [ChatWindow.renderSources] in H.
    destruct (ChatWindow.sourceLabel hostname source) as [l|] eqn:Hl; [|discriminate].
    destruct (ChatWindow.renderSources hostname rest) as [tl|]; [|discriminate].
    injection H as <-. constructor; [|apply IH; reflexivity].
    cbn [ChatWindow.href ChatWindow.label]. split; [reflexivity|].
    unfold ChatWindow.sourceLabel in Hl.
    destruct (orElse_cases (title source) Some
                (match hostname (uri source) with
                 | Some h => Some (h ++ (if (50 <? String.length (uri source))%nat
                                         then "..." else ""))%string
                 | None => None
                 end)) as [Htitle Hhost].
    split.
    + intros t Ht Hne. rewrite (Htitle t Ht Hne) in Hl. congruence.
    + intros Hno. rewrite (Hhost Hno) in Hl.
      destruct (hostname (uri source)) as [h|]; [|discriminate].
      exists h. split; [reflexivity|]. congruence.
Qed.

Lemma rendered_label_is_title_or_host_witness :
  Forall2 (fun source a =>
             ChatWindow.href a = uri source
             /\ (forall t, title source = Some t -> t <> EmptyString ->
                   ChatWindow.label a = t)
             /\ (title source = None \/ title source = Some EmptyString ->
                   exists h, ChatWindow.httpHostname (uri source) = Some h
                     /\ ChatWindow.label a
                        = (h ++ (if (50 <? String.length (uri source))%nat
                                 then "..." else ""))%string))
          [Sample.longSource; Sample.shortSource; Sample.blankTitleSource]
          [{| ChatWindow.href := uri Sample.longSource;
              ChatWindow.tooltip := uri Sample.longSource;
              ChatWindow.label := "example.com..." |};
           {| ChatWindow.href := uri Sample.shortSource;
              ChatWindow.tooltip := uri Sample.shortSource;
              ChatWindow.label := "example.com" |};
           {| ChatWindow.href := uri Sample.blankTitleSource;
              ChatWindow.tooltip := uri Sample.blankTitleSource;
              ChatWindow.label := "example.com" |}].
Proof.
  apply (rendered_label_is_title_or_host ChatWindow.httpHostname
           [Sample.longSource; Sample.shortSource; Sample.blankTitleSource]).
  reflexivity.
Defined.

(** C8 as stated fails: a source without title whose URI has more than 50
    code units is labelled with the host name followed by three dots. *)
Lemma long_uri_label_counterexample :
  title Sample.longSource = None
  /\ String.length (uri Sample.longSource) = 60
  /\ ChatWindow.httpHostname (uri Sample.longSource) = Some "example.com"%string
  /\ ChatWindow.sourceLabel ChatWindow.httpHostname Sample.longSource
     = Some "example.com..."%string
  /\ ChatWindow.sourceLabel ChatWindow.httpHostname Sample.longSource
     <> ChatWindow.httpHostname (uri Sample.longSource).
Proof. repeat split; try reflexivity. vm_compute. discriminate. Qed.

(* ================================================================== *)
(** ** Outcomes of a turn *)
(* ================================================================== *)


(** Decide the truthiness of a known string. *)
Ltac eval_truthy :=
  repeat match goal with
    | |- context [JsString.truthy ?a] =>
        let v := eval vm_compute in (JsString.truthy a) in
        lazymatch v with
        | true => change (JsString.truthy a) with true
        | false => change (JsString.truthy a) with false
        end
    end.

(** X2.  Whatever the SDK call rejects with, the user sees "AI Error: " followed
    by the fixed failure text of the capability; the error is logged to the
    console twice (by the capability and by the orchestrator), the key
    dialog is not opened and the call completes normally. *)
Theorem sdk_failure_turn env mode txt file e w :
  reachesGateway mode file = true ->
  genai_ctor env = None ->
  generateContent env (requestFor mode txt (fileDataOf file)) = SdkRejects e ->
  let res := handleSendMessage env mode txt file w in
  fst res = Normal tt
  /\ (exists mu ma,
        messages (snd res) = messages w ++ [mu; ma]
        /\ sender mu = user /\ text mu = txt
        /\ sender ma = ai
        /\ text ma = ("AI Error: " ++ failureText mode)%string
        /\ sources ma = None)
  /\ reselections (snd res) = reselections w
  /\ count isConsoleError (trace (snd res)) = count isConsoleError (trace w) + 2.
Proof.
  unfold reachesGateway, decodeFails, fileDataOf, requestFor, reselections.
  unfold_turn.
  destruct file as [f|]; [destruct (fileToBase64 f) eqn:Hdecode|];
    destruct mode; cbn; try (intros Hreach; discriminate Hreach);
    intros _ Hctor Hsdk; rewrite Hctor; cbn; rewrite Hsdk; cbn;
    eval_includes; eval_truthy; cbn;
    rewrite ?truthy_blobUrl; cbn; rewrite ?count_app; unfold count; cbn;
    rewrite <- ?app_assoc; cbn [app];
    (split; [reflexivity|]);
    (split; [do 2 eexists; split; [reflexivity|]; repeat split; reflexivity|]);
    (split; lia).
Qed.

(** X3.  When the SDK client cannot be constructed, the capability rejects with
    that very error, without sending a request, without logging and
    without touching the log. *)
Theorem client_construction_failure env mode txt fd m w :
  genai_ctor env = Some m ->
  let res := callCapability env mode txt fd w in
  fst res = Throws (Error m)
  /\ count isSdkRequest (trace (snd res)) = count isSdkRequest (trace w)
  /\ count isConsoleError (trace (snd res)) = count isConsoleError (trace w)
  /\ messages (snd res) = messages w.
Proof.
  intros Hctor. unfold_turn. destruct mode; rewrite Hctor; cbn;
    rewrite ?count_app; unfold count; cbn; repeat split; lia.
Qed.

(** X4.  Whatever the outside world answers, a call of [handleSendMessage] ends
    with the flight flag cleared and leaves the form, the mode and the
    suspended turns as they were. *)
Theorem turn_always_clears_flag env mode txt file w :
  let w' := snd (handleSendMessage env mode txt file w) in
  isLoading w' = false
  /\ input w' = input w
  /\ pending w' = pending w
  /\ currentMode w' = currentMode w.
Proof.
  rewrite handleSendMessage_unfold.
  destruct (sendMessageSteps_exit env mode txt file (with_isLoading true w))
    as (Hl & Hi & Hp & Hm).
  auto.
Qed.

(** X6.  When a turn with a readable attachment has ended, its user turn in the
    log still refers to the preview URL, and that URL has been revoked. *)
Theorem user_turn_image_is_released env mode txt f d w :
  fileToBase64 f = inr d ->
  let u := blobUrl (blobs w) in
  let w' := snd (handleSendMessage env mode txt (Some f) w) in
  (exists mu rest, messages w' = messages w ++ mu :: rest
                   /\ sender mu = user /\ imageUrl mu = Some u)
  /\ revocations u w < revocations u w'.
Proof.
  intros Hdecode u w'. split.
  - subst u w'. unfold_turn. rewrite Hdecode.
    destruct mode; destruct (genai_ctor env) eqn:?; cbn;
      rewrite ?truthy_blobUrl; cbn; split_oracles; cbn;
      rewrite <- ?app_assoc; cbn [app];
      do 2 eexists; (split; [reflexivity|]); split; reflexivity.
  - destruct (preview_release_count env mode txt f d w Hdecode) as [_ H].
    subst u w'. rewrite H. destruct (isMultimodalMode mode); lia.
Qed.

(* ================================================================== *)
(** ** Reading the attachment *)
(* ================================================================== *)

Lemma split_cons c d r :
  JsString.split c (String d r)
  = if Ascii.eqb d c then EmptyString :: JsString.split c r
    else match JsString.split c r with
         | [] => [String d EmptyString]
         | h :: t => String d h :: t
         end.
Proof. reflexivity. Qed.

Lemma split_without_separator c s :
  occurrences c s = 0 -> JsString.split c s = [s].
Proof.
  induction s as [|d r IH]; intros H; [reflexivity|].
  cbn [occurrences] in H. rewrite split_cons.
  destruct (Ascii.eqb d c); [discriminate H|].
  rewrite IH by exact H. reflexivity.
Qed.

Lemma split_at_first_separator c h p :
  occurrences c h = 0 ->
  JsString.split c (h ++ String c p)%string = h :: JsString.split c p.
Proof.
  induction h as [|d r IH]; intros H.
  - change (EmptyString ++ String c p)%string with (String c p).
    rewrite split_cons, Ascii.eqb_refl. reflexivity.
  - cbn [occurrences] in H.
    change (String d r ++ String c p)%string with (String d (r ++ String c p)).
    rewrite split_cons.
    destruct (Ascii.eqb d c); [discriminate H|].
    rewrite IH by exact H. reflexivity.
Qed.

Lemma length_split c s :
  List.length (JsString.split c s) = S (occurrences c s).
Proof.
  induction s as [|d r IH]; [reflexivity|].
  rewrite split_cons. cbn [occurrences].
  destruct (Ascii.eqb d c); cbn [List.length Nat.add].
  - rewrite IH. reflexivity.
  - destruct (JsString.split c r); cbn in *; [discriminate IH | exact IH].
Qed.

(** X7.  For a data URL whose header and payload contain no comma,
    [fileToBase64] resolves with exactly the payload. *)
Theorem fileToBase64_strips_data_url_prefix f header payload :
  file_reader f = ReaderLoadString (header ++ "," ++ payload)%string ->
  occurrences "," header = 0 ->
  occurrences "," payload = 0 ->
  fileToBase64 f = inr (Some payload).
Proof.
  intros Hread Hh Hp. unfold fileToBase64. rewrite Hread.
  change ("," ++ payload)%string with (String "," payload).
  rewrite (split_at_first_separator _ _ _ Hh), (split_without_separator _ _ Hp).
  reflexivity.
Qed.

Lemma fileToBase64_strips_data_url_prefix_witness :
  fileToBase64 Sample.png = inr (Some "iVBORw0KGgo="%string).
Proof.
  apply (fileToBase64_strips_data_url_prefix Sample.png "data:image/png;base64"
           "iVBORw0KGgo="); reflexivity.
Defined.

(** X8.  A reader result without a comma is not a decoding failure:
    [fileToBase64] resolves with [undefined], and under Standard chat the
    request is sent with an inline part that has the media type and no
    data. *)
Theorem data_url_without_comma_is_sent_undefined env txt f s w :
  file_reader f = ReaderLoadString s ->
  occurrences "," s = 0 ->
  genai_ctor env = None ->
  let w' := snd (handleSendMessage env Standard txt (Some f) w) in
  fileToBase64 f = inr None
  /\ gatewayEvents w'
     = gatewayEvents w
       ++ [CallStandard txt (Some {| data := None; mimeType := file_type f |});
           NewGoogleGenAI;
           SdkGenerateContent
             {| model := "gemini-3-pro-preview";
                contents := ContentsParts
                              [TextPart txt; InlineDataPart (file_type f) None];
                config := NoConfig |}].
Proof.
  intros Hread Hs Hctor.
  assert (Hdecode : fileToBase64 f = inr None).
  { unfold fileToBase64. rewrite Hread, (split_without_separator _ _ Hs). reflexivity. }
  split; [exact Hdecode|].
  unfold_turn. rewrite Hdecode, Hctor. cbn.
  rewrite ?truthy_blobUrl; cbn. split_oracles; cbn; rewrite ?truthy_blobUrl; cbn;
    unfold gatewayEvents; cbn; rewrite ?filter_app; cbn;
    rewrite ?app_nil_r, <- ?app_assoc; reflexivity.
Qed.

Lemma data_url_without_comma_is_sent_undefined_witness :
  let f := {| file_type := "image/png"; file_reader := ReaderLoadString "data:" |} in
  let w' := snd (handleSendMessage Sample.answering Standard "Describe this"
                   (Some f) initialWorld) in
  fileToBase64 f = inr None
  /\ gatewayEvents w'
     = gatewayEvents initialWorld
       ++ [CallStandard "Describe this"
             (Some {| data := None; mimeType := "image/png" |});
           NewGoogleGenAI;
           SdkGenerateContent
             {| model := "gemini-3-pro-preview";
                contents := ContentsParts
                              [TextPart "Describe this";
                               InlineDataPart "image/png" None];
                config := NoConfig |}].
Proof.
  apply (data_url_without_comma_is_sent_undefined Sample.answering "Describe this"
           {| file_type := "image/png"; file_reader := ReaderLoadString "data:" |}
           "data:" initialWorld); reflexivity.
Defined.

(* ================================================================== *)
(** ** Grounding sources and their rendering *)
(* ================================================================== *)

(** X9.  For chunks that all have a web part, the extracted sources are the web
    sources in the order of the chunks, duplicates kept; a maps part of
    such a chunk is ignored. *)
Theorem extractGroundingSources_web_chunks t (pairs : list (WebChunk * option MapsChunk)) :
  extractGroundingSources
    {| response_text := t;
       groundingChunks :=
         Some (map (fun p => {| web := Some (fst p); maps := snd p |}) pairs) |}
  = map (fun p => webSource (fst p)) pairs.
Proof.
  unfold extractGroundingSources. cbn [groundingChunks].
  induction pairs as [|p pairs IH]; [reflexivity|].
  cbn [map flat_map]. rewrite IH. reflexivity.
Qed.

Lemma in_snippetSources s place :
  In s (snippetSources place) <->
  exists snippets sn, reviewSnippets place = Some snippets
                      /\ In sn snippets /\ s = reviewSource sn.
Proof.
  unfold snippetSources. destruct (reviewSnippets place) as [snippets|].
  - rewrite in_map_iff. split.
    + intros (sn & <- & Hin). exists snippets, sn. auto.
    + intros (l & sn & Hl & Hin & ->). injection Hl as <-. exists sn. auto.
  - split; [intros [] | intros (l & sn & Hl & _); discriminate Hl].
Qed.

Lemma in_chunkSources s chunk :
  In s (chunkSources chunk) <->
  (exists wc, web chunk = Some wc /\ s = webSource wc)
  \/ (web chunk = None
      /\ exists mc, maps chunk = Some mc
         /\ (s = placeSource mc
             \/ exists places place snippets sn,
                  placeAnswerSources mc = Some places /\ In place places
                  /\ reviewSnippets place = Some snippets
                  /\ In sn snippets /\ s = reviewSource sn)).
Proof.
  unfold chunkSources. destruct (web chunk) as [wc|].
  - split.
    + intros [<-|[]]. left. exists wc. auto.
    + intros [(wc' & Hw & ->)|(Hw & _)]; [|discriminate Hw].
      injection Hw as <-. left. reflexivity.
  - destruct (maps chunk) as [mc|].
    + split.
      * intros [<-|Hin]; right; (split; [reflexivity|]); exists mc;
          (split; [reflexivity|]); [left; reflexivity|right].
        destruct (placeAnswerSources mc) as [places|]; [|destruct Hin].
        apply in_flat_map in Hin. destruct Hin as (place & Hplace & Hs).
        apply in_snippetSources in Hs. destruct Hs as (snippets & sn & H1 & H2 & H3).
        exists places, place, snippets, sn. auto.
      * intros [(wc & Hw & _)|(_ & mc' & Hm & Hs)]; [discriminate Hw|].
        injection Hm as <-.
        destruct Hs as [->|(places & place & snippets & sn & Hp & Hin & Hr & Hsn & ->)].
        -- left. reflexivity.
        -- right. rewrite Hp. apply in_flat_map. exists place. split; [exact Hin|].
           apply in_snippetSources. exists snippets, sn. auto.
    + split; [intros []|].
      intros [(wc & Hw & _)|(_ & mc & Hm & _)]; discriminate.
Qed.

(** X10.  A source is extracted exactly when it is the web source of a chunk, or
    the place or one of the review snippets of a chunk that has a maps
    part and no web part.  In particular nothing is extracted from a
    response without grounding chunks. *)
Theorem extractGroundingSources_membership r s :
  In s (extractGroundingSources r) <->
  exists chunks chunk,
    groundingChunks r = Some chunks /\ In chunk chunks
    /\ ((exists wc, web chunk = Some wc /\ s = webSource wc)
        \/ (web chunk = None
            /\ exists mc, maps chunk = Some mc
               /\ (s = placeSource mc
                   \/ exists places place snippets sn,
                        placeAnswerSources mc = Some places /\ In place places
                        /\ reviewSnippets place = Some snippets
                        /\ In sn snippets /\ s = reviewSource sn))).
Proof.
  unfold extractGroundingSources. destruct (groundingChunks r) as [chunks|].
  - rewrite in_flat_map. split.
    + intros (chunk & Hin & Hs). exists chunks, chunk.
      split; [reflexivity|]. split; [exact Hin|]. apply in_chunkSources. exact Hs.
    + intros (l & chunk & Hl & Hin & Hs). injection Hl as <-.
      exists chunk. split; [exact Hin|]. apply in_chunkSources. exact Hs.
  - split; [intros []|]. intros (l & chunk & Hl & _). discriminate Hl.
Qed.

(** X11.  Rendering a citation list throws exactly when some source without a
    (non-empty) title has a URI that the URL parser rejects; sources with a
    title are never parsed. *)
Theorem renderSources_fails_iff hostname sources :
  ChatWindow.renderSources hostname sources = None <->
  Exists (fun source => falsyTitle source /\ hostname (uri source) = None) sources.
Proof.
  induction sources as [|source rest IH].
  - cbn. split; [discriminate | intros H; inversion H].
  - cbn [ChatWindow.renderSources].
    assert (Hlabel : ChatWindow.sourceLabel hostname source = None
                     <-> falsyTitle source /\ hostname (uri source) = None).
    { unfold ChatWindow.sourceLabel, ChatWindow.orElse, falsyTitle.
      destruct (title source) as [t|]; [destruct t as [|c t]|];
        cbn; destruct (hostname (uri source)); split; intros H;
        try discriminate H; try (split; auto; fail); try tauto;
        destruct H as [[H|H] H']; try discriminate H; try discriminate H'. }
    destruct (ChatWindow.sourceLabel hostname source) as [l|].
    + destruct (ChatWindow.renderSources hostname rest) as [anchors|].
      * split; [discriminate|]. intros H. inversion H as [? ? Hs|? ? Hr]; subst.
        -- apply Hlabel in Hs. discriminate Hs.
        -- apply IH in Hr. discriminate Hr.
      * split; [|reflexivity]. intros _. apply Exists_cons_tl. apply IH. reflexivity.
    + split; [|reflexivity]. intros _. apply Exists_cons_hd. apply Hlabel. reflexivity.
Qed.

(* ================================================================== *)
(** ** The message form *)
(* ================================================================== *)

Import MessageInputView.

(** X12.  The text area shows between one and five rows: the number of lines of
    the text, capped at five. *)
Theorem textareaRows_bounds s :
  1 <= textareaRows s <= 5
  /\ textareaRows s = Nat.min 5 (S (occurrences newline s)).
Proof.
  unfold textareaRows. rewrite length_split.
  destruct (Nat.ltb_spec 1 (S (occurrences newline s))); lia.
Qed.

(** X13.  The send button is disabled exactly when a submission would be
    dropped: when it is disabled, neither submitting nor any key press
    changes the state or calls the callback; when it is enabled, a
    submission starts a turn with the trimmed text and the selected file. *)
Theorem submit_disabled_matches_guard w :
  (submitDisabled w = true ->
   forall onSendMessage key shiftKey,
     MessageInput.handleSubmit onSendMessage w = (Normal tt, w)
     /\ handleKeyPress key shiftKey onSendMessage w = (Normal tt, w))
  /\ (submitDisabled w = false ->
      let w' := Session.step w Session.Submit in
      isLoading w' = true
      /\ pending w'
         = pending w ++ [{| turn_mode := currentMode w;
                            turn_text := JsString.trim (inputText (input w));
                            turn_file := selectedFile (input w) |}]).
Proof.
  unfold submitDisabled. split.
  - intros Hdis k key shiftKey.
    assert (Hnoop : MessageInput.handleSubmit k w = (Normal tt, w)).
    { unfold_form. cbn. destruct (isLoading w); cbn; [reflexivity|].
      cbn in Hdis. apply andb_true_iff in Hdis. destruct Hdis as [Ht Hf].
      apply negb_true_iff in Ht. apply negb_true_iff in Hf.
      rewrite Ht, Hf. reflexivity. }
    split; [exact Hnoop|].
    unfold handleKeyPress. destruct (String.eqb key "Enter" && negb shiftKey);
      [exact Hnoop | reflexivity].
  - intros Hen. apply orb_false_iff in Hen. destruct Hen as [Hl Hg].
    assert (Hguard : JsString.truthy (JsString.trim (inputText (input w)))
                     || match selectedFile (input w) with
                        | Some _ => true | None => false end = true).
    { destruct (JsString.truthy (JsString.trim (inputText (input w))));
        [reflexivity|]. cbn in Hg |- *. apply negb_false_iff in Hg. exact Hg. }
    unfold Session.step. unfold_form. rewrite Hl. cbn. rewrite Hguard. cbn.
    destruct (inputPreviewUrl (input w)) as [u|]; cbn;
      [destruct (JsString.truthy u); cbn|]; auto.
Qed.

(** What a turn leaves alone and how much it adds. *)
Lemma turn_frame env mode txt file w :
  let w' := snd (function_body (sendMessageSteps env mode txt file) w) in
  blobs w <= blobs w' <= S (blobs w)
  /\ (exists ms, messages w' = messages w ++ ms
                 /\ List.length ms <= 2
                 /\ Forall (fun m => turnWellFormed m
                                     /\ (sender m = user -> text m = txt)) ms)
  /\ (forall u, u <> blobUrl (blobs w) -> revocations u w' = revocations u w)
  /\ (blobs w' = blobs w -> forall u, revocations u w' = revocations u w).
Proof.
  unfold revocations. unfold_turn.
  destruct file as [f|]; [destruct (fileToBase64 f)|];
    destruct mode; destruct (genai_ctor env); cbn;
    rewrite ?truthy_blobUrl; cbn; split_oracles; cbn.
  all: split; [lia|split; [|split]].
  all: try (rewrite <- ?app_assoc; cbn [app]; eexists;
            split; [first [reflexivity | symmetry; apply app_nil_r]|];
            split; [cbn; lia
                   | repeat (apply Forall_cons;
                             [split; [reflexivity | cbn; intros; congruence]|]);
                     apply Forall_nil]).
  all: try (intros Hb; exfalso; lia).
  all: try (intros u Hu; rewrite ?count_app; unfold count; cbn [filter isRevokeOf];
            try (apply String.eqb_neq in Hu; rewrite Hu); cbn; lia).
  all: intros _ u; rewrite ?count_app; unfold count; cbn [filter isRevokeOf]; cbn; lia.
Qed.

(* ================================================================== *)
(** ** Object URLs over a session *)
(* ================================================================== *)

Lemma append_inj_l p a b : (p ++ a)%string = (p ++ b)%string -> a = b.
Proof.
  induction p as [|c p IH]; intros H; [exact H|].
  change (String c (p ++ a)%string = String c (p ++ b)%string) in H.
  injection H as H. apply IH. exact H.
Qed.

Lemma blobUrl_inj n m : blobUrl n = blobUrl m -> n = m.
Proof.
  unfold blobUrl. intros H. apply append_inj_l in H.
  apply (f_equal NilEmpty.uint_of_string) in H.
  rewrite !NilEmpty.usu in H. injection H as H.
  apply DecimalNat.Unsigned.to_uint_inj. exact H.
Qed.

Lemma blobUrl_fresh n w : n < blobs w -> blobUrl n <> blobUrl (blobs w).
Proof. intros Hn H. apply blobUrl_inj in H. lia. Qed.

(** What a resumed turn does to the rest of the state. *)
Lemma step_resume_frame w env i :
  let w' := Session.step w (Session.Resume env i) in
  input w' = input w
  /\ blobs w <= blobs w' <= S (blobs w)
  /\ (exists ms, messages w' = messages w ++ ms
                 /\ List.length ms <= 2
                 /\ Forall (fun m => turnWellFormed m
                                     /\ (sender m = user ->
                                         exists t, In t (pending w)
                                                   /\ text m = turn_text t)) ms)
  /\ (forall u, u <> blobUrl (blobs w) -> revocations u w' = revocations u w)
  /\ (blobs w' = blobs w -> forall u, revocations u w' = revocations u w).
Proof.
  unfold Session.step, Session.resumeTurn.
  destruct (nth_error (pending w) i) as [t|] eqn:Hnth.
  - pose proof (sendMessageSteps_exit env (turn_mode t) (turn_text t) (turn_file t)
                  (with_pending (Session.remove_nth i) w)) as (_ & Hi & _ & _).
    pose proof (turn_frame env (turn_mode t) (turn_text t) (turn_file t)
                  (with_pending (Session.remove_nth i) w)) as (Hb & Hm & Hr & Hs).
    cbn [blobs with_pending messages input] in *.
    split; [exact Hi|]. split; [lia|]. split; [|split; [exact Hr|exact Hs]].
    destruct Hm as (ms & Hms & Hlen & Hall). exists ms.
    split; [exact Hms|]. split; [exact Hlen|].
    eapply Forall_impl; [|exact Hall]. intros m [Hwf Htxt].
    split; [exact Hwf|]. intros Hu. exists t.
    split; [eapply nth_error_In; exact Hnth | apply Htxt; exact Hu].
  - cbn. split; [reflexivity|]. split; [lia|]. split; [|split; reflexivity].
    exists []. rewrite app_nil_r. split; [reflexivity|]. split; [cbn; lia|constructor].
Qed.

(** The handlers of the form do not write to the log. *)
Lemma form_event_keeps_log w ev :
  isResume ev = false -> messages (Session.step w ev) = messages w.
Proof.
  destruct ev as [v|file| | |m|env i]; intros H; try discriminate H;
    unfold Session.step; unfold_form; cbn.
  - reflexivity.
  - destruct file as [f|]; cbn; [|reflexivity].
    destruct (JsString.startsWith "image/" (file_type f)); reflexivity.
  - destruct (inputPreviewUrl (input w)) as [u|]; cbn;
      [destruct (JsString.truthy u)|]; reflexivity.
  - destruct (isLoading w); cbn; [reflexivity|].
    destruct (JsString.truthy (JsString.trim (inputText (input w)))
              || match selectedFile (input w) with Some _ => true | None => false end);
      cbn; [|reflexivity].
    destruct (inputPreviewUrl (input w)) as [u|]; cbn;
      [destruct (JsString.truthy u)|]; reflexivity.
  - reflexivity.
Qed.

Lemma step_keeps_formInvariant w ev :
  formInvariant w -> formInvariant (Session.step w ev).
Proof.
  unfold formInvariant. intros Hinv.
  destruct ev as [v|file| | |m|env i].
  - unfold Session.step; unfold_form; cbn. exact Hinv.
  - unfold Session.step; unfold_form.
    destruct file as [f|]; cbn; [|exact I].
    destruct (JsString.startsWith "image/" (file_type f)); cbn; [|exact I].
    exists (blobs w). split; [lia | reflexivity].
  - destruct (selectedFile (input w)) eqn:Hs,
      (inputPreviewUrl (input w)) as [u|] eqn:Hp;
      try contradiction; try destruct Hinv as (n & _ & ->);
      unfold Session.step; unfold_form; cbn; rewrite ?Hp; cbn;
      rewrite ?truthy_blobUrl; cbn; rewrite ?Hp; exact I.
  - destruct (isLoading w) eqn:Hl.
    { unfold Session.step. rewrite handleSubmit_while_loading by exact Hl. exact Hinv. }
    destruct (JsString.truthy (JsString.trim (inputText (input w)))
              || match selectedFile (input w) with Some _ => true | None => false end)
      eqn:Hguard.
    + destruct (selectedFile (input w)) eqn:Hs,
        (inputPreviewUrl (input w)) as [u|] eqn:Hp;
        try contradiction; try destruct Hinv as (n & _ & ->);
        unfold Session.step; unfold_form; cbn; rewrite ?Hl, ?Hs; cbn;
        rewrite ?Hguard; cbn; rewrite ?Hp; cbn; rewrite ?truthy_blobUrl; cbn;
        rewrite ?Hp; exact I.
    + unfold Session.step; unfold_form; cbn. rewrite Hl. cbn. rewrite Hguard. exact Hinv.
  - cbn. exact Hinv.
  - destruct (step_resume_frame w env i) as (Hi & Hb & _).
    rewrite Hi.
    destruct (selectedFile (input w)), (inputPreviewUrl (input w)) as [u|]; auto.
    destruct Hinv as (n & Hn & ->). exists n. split; [lia | reflexivity].
Qed.

Lemma run_from_keeps_formInvariant evs w :
  formInvariant w -> formInvariant (fold_left Session.step evs w).
Proof.
  revert w. induction evs as [|ev evs IH]; intros w Hinv; [exact Hinv|].
  cbn [fold_left]. apply IH. apply step_keeps_formInvariant. exact Hinv.
Qed.


Lemma revocations_event u e w :
  revocations u (with_event e w)
  = revocations u w + (if isRevokeOf u e then 1 else 0).
Proof.
  unfold revocations. cbn [trace with_event]. rewrite count_app.
  unfold count. cbn [filter]. destruct (isRevokeOf u e); reflexivity.
Qed.

Lemma isRevokeOf_blobUrl_neq n k :
  n <> k -> isRevokeOf (blobUrl n) (RevokeObjectURL (blobUrl k)) = false.
Proof.
  intros H. cbn [isRevokeOf]. apply String.eqb_neq.
  intros E. apply blobUrl_inj in E. contradiction.
Qed.

Lemma step_keeps_liveInvariant w ev :
  formInvariant w -> liveInvariant w -> liveInvariant (Session.step w ev).
Proof.
  unfold formInvariant, liveInvariant. intros Hform [Hprev Hfresh].
  destruct ev as [v|file| | |m|env i].
  - unfold Session.step; unfold_form; cbn. split; assumption.
  - unfold Session.step; unfold_form.
    destruct file as [f|]; cbn; [|split; [discriminate | exact Hfresh]].
    destruct (JsString.startsWith "image/" (file_type f)); cbn.
    + split.
      * intros u Hu. injection Hu as <-.
        change (revocations (blobUrl (blobs w))
                  (with_event (CreateObjectURL (blobUrl (blobs w))) w) = 0).
        rewrite revocations_event. cbn. rewrite Hfresh by lia. reflexivity.
      * intros n Hn.
        change (revocations (blobUrl n)
                  (with_event (CreateObjectURL (blobUrl (blobs w))) w) = 0).
        rewrite revocations_event. cbn. rewrite Hfresh by lia. reflexivity.
    + split; [discriminate|]. intros n Hn.
      change (revocations (blobUrl n)
                (with_event (Alert MessageInput.fileAlertText) w) = 0).
      rewrite revocations_event. cbn. rewrite Hfresh by lia. reflexivity.
  - destruct (selectedFile (input w)) eqn:Hs,
      (inputPreviewUrl (input w)) as [u|] eqn:Hp;
      try contradiction; try destruct Hform as (k & Hk & ->);
      unfold Session.step; unfold_form; cbn; rewrite ?Hp; cbn;
      rewrite ?truthy_blobUrl; cbn; rewrite ?Hp.
    + split; [discriminate|]. intros n Hn.
      change (revocations (blobUrl n)
                (with_event (RevokeObjectURL (blobUrl k)) w) = 0).
      rewrite revocations_event, isRevokeOf_blobUrl_neq by lia.
      rewrite Hfresh by lia. reflexivity.
    + split; [discriminate | exact Hfresh].
  - destruct (isLoading w) eqn:Hl.
    { unfold Session.step. rewrite handleSubmit_while_loading by exact Hl.
      split; assumption. }
    destruct (JsString.truthy (JsString.trim (inputText (input w)))
              || match selectedFile (input w) with Some _ => true | None => false end)
      eqn:Hguard.
    + destruct (selectedFile (input w)) eqn:Hs,
        (inputPreviewUrl (input w)) as [u|] eqn:Hp;
        try contradiction; try destruct Hform as (k & Hk & ->);
        unfold Session.step; unfold_form; cbn; rewrite ?Hl, ?Hs; cbn;
        rewrite ?Hguard; cbn; rewrite ?Hp; cbn; rewrite ?truthy_blobUrl; cbn;
        rewrite ?Hp.
      * split; [discriminate|]. intros n Hn.
        unfold revocations, with_input, with_event, with_pending, with_isLoading.
        cbn [trace]. rewrite count_app. unfold count.
        cbn [filter]. rewrite isRevokeOf_blobUrl_neq by lia.
        specialize (Hfresh n Hn). unfold revocations, count in Hfresh.
        rewrite Hfresh. reflexivity.
      * split; [discriminate | exact Hfresh].
    + unfold Session.step; unfold_form; cbn. rewrite Hl. cbn. rewrite Hguard.
      split; assumption.
  - cbn. split; assumption.
  - destruct (step_resume_frame w env i) as (Hi & Hb & _ & Hother & Hsame).
    rewrite Hi. split.
    + intros u Hu. rewrite Hu in Hform.
      destruct (selectedFile (input w)); [|contradiction].
      destruct Hform as (k & Hk & ->).
      rewrite Hother by (apply blobUrl_fresh; exact Hk).
      apply Hprev. exact Hu.
    + intros n Hn. destruct (Nat.eq_dec n (blobs w)) as [->|Hne].
      * rewrite Hsame by lia. apply Hfresh. lia.
      * rewrite Hother by (intros E; apply blobUrl_inj in E; contradiction).
        apply Hfresh. lia.
Qed.

Lemma run_from_keeps_form_and_live evs w :
  formInvariant w -> liveInvariant w ->
  formInvariant (fold_left Session.step evs w)
  /\ liveInvariant (fold_left Session.step evs w).
Proof.
  revert w. induction evs as [|ev evs IH]; intros w Hf Hl; [split; assumption|].
  cbn [fold_left]. apply IH.
  - apply step_keeps_formInvariant. exact Hf.
  - apply step_keeps_liveInvariant; assumption.
Qed.

Lemma initial_form_and_live : formInvariant initialWorld /\ liveInvariant initialWorld.
Proof.
  split; [exact I|]. split; [discriminate | reflexivity].
Qed.

(** X14.  In every state the session can reach, the form holds a preview URL
    exactly when a file is selected, and that URL is one that was created
    and has not been revoked. *)
Theorem form_preview_is_live evs :
  let w := Session.run evs in
  (selectedFile (input w) = None <-> inputPreviewUrl (input w) = None)
  /\ (forall u, inputPreviewUrl (input w) = Some u ->
        (exists n, n < blobs w /\ u = blobUrl n)
        /\ revocations u w = 0).
Proof.
  destruct initial_form_and_live as [Hf0 Hl0].
  destruct (run_from_keeps_form_and_live evs initialWorld Hf0 Hl0) as [Hf [Hl _]].
  fold (Session.run evs) in Hf, Hl. cbv zeta. unfold formInvariant in Hf.
  destruct (selectedFile (input (Session.run evs))),
    (inputPreviewUrl (input (Session.run evs))) as [u|] eqn:Hp; try contradiction.
  - split; [split; discriminate|].
    intros u' Hu. injection Hu as <-. destruct Hf as (n & Hn & ->).
    split; [exists n; auto|]. apply Hl. reflexivity.
  - split; [tauto | discriminate].
Qed.

(** X15.  In every reachable state, a submission that is accepted empties the
    form and revokes the preview URL of the form exactly once, if there is
    one; no other object URL is revoked by it. *)
Theorem accepted_submit_resets_form evs :
  let w := Session.run evs in
  submitDisabled w = false ->
  let w' := Session.step w Session.Submit in
  input w' = emptyInput
  /\ match inputPreviewUrl (input w) with
     | Some u =>
         revocations u w' = 1
         /\ forall v, v <> u -> revocations v w' = revocations v w
     | None => forall v, revocations v w' = revocations v w
     end.
Proof.
  destruct initial_form_and_live as [Hf0 Hl0].
  destruct (run_from_keeps_form_and_live evs initialWorld Hf0 Hl0) as [Hf [Hl _]].
  fold (Session.run evs) in Hf, Hl. cbv zeta.
  set (w := Session.run evs) in *. unfold formInvariant in Hf.
  unfold submitDisabled. intros Hen.
  apply orb_false_iff in Hen. destruct Hen as [Hload Hg].
  assert (Hguard : JsString.truthy (JsString.trim (inputText (input w)))
                   || match selectedFile (input w) with
                      | Some _ => true | None => false end = true).
  { destruct (JsString.truthy (JsString.trim (inputText (input w))));
      [reflexivity|]. cbn in Hg |- *. apply negb_false_iff in Hg. exact Hg. }
  destruct (selectedFile (input w)) eqn:Hs,
    (inputPreviewUrl (input w)) as [u|] eqn:Hp; try contradiction.
  - destruct Hf as (n & Hn & ->).
    specialize (Hl _ eq_refl).
    unfold Session.step; unfold_form; cbn. rewrite ?Hload, ?Hs; cbn.
    rewrite ?Hguard; cbn. rewrite ?Hp; cbn. rewrite ?truthy_blobUrl; cbn.
    split; [reflexivity|].
    unfold revocations, with_input, with_event, with_pending, with_isLoading in *.
    cbn [trace]. split.
    + rewrite count_app, Hl.
      unfold count. cbn [filter isRevokeOf]. rewrite String.eqb_refl. reflexivity.
    + intros v Hv. rewrite count_app. unfold count. cbn [filter isRevokeOf].
      apply String.eqb_neq in Hv. rewrite Hv. cbn. lia.
  - unfold Session.step; unfold_form; cbn. rewrite ?Hload, ?Hs; cbn.
    rewrite ?Hguard; cbn. rewrite ?Hp; cbn. rewrite ?Hp.
    split; reflexivity.
Qed.

Lemma accepted_submit_resets_form_witness :
  let w := Session.run [Session.ChooseFile (Some Sample.png);
                        Session.TypeText " Describe this "] in
  let w' := Session.step w Session.Submit in
  input w' = emptyInput
  /\ revocations "blob:0" w' = 1
  /\ forall v, v <> "blob:0"%string -> revocations v w' = revocations v w.
Proof.
  apply (accepted_submit_resets_form
           [Session.ChooseFile (Some Sample.png); Session.TypeText " Describe this "]).
  reflexivity.
Defined.

(** An object URL that is not the preview of the form stays as often
    revoked as it is, whatever happens next. *)
Lemma step_keeps_orphan n w ev :
  n < blobs w ->
  inputPreviewUrl (input w) <> Some (blobUrl n) ->
  let w' := Session.step w ev in
  n < blobs w'
  /\ inputPreviewUrl (input w') <> Some (blobUrl n)
  /\ revocations (blobUrl n) w' = revocations (blobUrl n) w.
Proof.
  intros Hn Hp.
  destruct ev as [v|file| | |m|env i].
  - unfold Session.step; unfold_form; cbn. auto.
  - unfold Session.step; unfold_form.
    destruct file as [f|]; cbn; [|split; [exact Hn|split; [discriminate|reflexivity]]].
    destruct (JsString.startsWith "image/" (file_type f)); cbn.
    + split; [lia|]. split.
      * intros E. assert (E' : blobUrl (blobs w) = blobUrl n) by congruence.
        apply blobUrl_inj in E'. lia.
      * unfold revocations, with_input, with_event, with_blob. cbn [trace].
        rewrite count_app. unfold count. cbn. lia.
    + split; [exact Hn|]. split; [discriminate|].
      unfold revocations, with_input, with_event. cbn [trace].
      rewrite count_app. unfold count. cbn. lia.
  - unfold Session.step; unfold_form; cbn.
    destruct (inputPreviewUrl (input w)) as [p|] eqn:Hprev; cbn;
      [destruct (JsString.truthy p); cbn|].
    + split; [exact Hn|]. split; [discriminate|].
      unfold revocations, with_input, with_event. cbn [trace].
      rewrite count_app. unfold count. cbn [filter isRevokeOf].
      assert (Hne : String.eqb (blobUrl n) p = false).
      { apply String.eqb_neq. intros E. apply Hp. rewrite E. reflexivity. }
      rewrite Hne. cbn. lia.
    + rewrite Hprev. auto.
    + rewrite Hprev. split; [exact Hn|]. split; [discriminate|reflexivity].
  - destruct (isLoading w) eqn:Hl.
    { unfold Session.step. rewrite handleSubmit_while_loading by exact Hl. auto. }
    destruct (JsString.truthy (JsString.trim (inputText (input w)))
              || match selectedFile (input w) with Some _ => true | None => false end)
      eqn:Hguard.
    + unfold Session.step; unfold_form; cbn. rewrite Hl; cbn. rewrite Hguard; cbn.
      destruct (inputPreviewUrl (input w)) as [p|] eqn:Hprev; cbn;
        [destruct (JsString.truthy p); cbn|].
      * split; [exact Hn|]. split; [discriminate|].
        unfold revocations, with_input, with_event, with_pending, with_isLoading.
        cbn [trace]. rewrite count_app. unfold count. cbn [filter isRevokeOf].
        assert (Hne : String.eqb (blobUrl n) p = false).
        { apply String.eqb_neq. intros E. apply Hp. rewrite E. reflexivity. }
        rewrite Hne. cbn. lia.
      * rewrite Hprev. auto.
      * rewrite Hprev. split; [exact Hn|]. split; [discriminate|reflexivity].
    + unfold Session.step; unfold_form; cbn. rewrite Hl; cbn. rewrite Hguard. auto.
  - cbn. auto.
  - destruct (step_resume_frame w env i) as (Hi & Hb & _ & Hother & _).
    cbv zeta. rewrite Hi. split; [lia|]. split; [exact Hp|].
    apply Hother. apply blobUrl_fresh. exact Hn.
Qed.

Lemma run_from_keeps_orphan n evs w :
  n < blobs w ->
  inputPreviewUrl (input w) <> Some (blobUrl n) ->
  revocations (blobUrl n) (fold_left Session.step evs w) = revocations (blobUrl n) w.
Proof.
  revert w. induction evs as [|ev evs IH]; intros w Hn Hp; [reflexivity|].
  cbn [fold_left].
  destruct (step_keeps_orphan n w ev Hn Hp) as (Hn' & Hp' & Hr).
  rewrite IH by assumption. exact Hr.
Qed.

(** X16.  Choosing again while a preview is shown replaces the preview without
    revoking it, and nothing that happens afterwards revokes it either. *)
Theorem replaced_preview_is_never_released evs file evs' u :
  let w := Session.run evs in
  inputPreviewUrl (input w) = Some u ->
  let w1 := Session.step w (Session.ChooseFile file) in
  inputPreviewUrl (input w1) <> Some u
  /\ revocations u (fold_left Session.step evs' w1) = 0.
Proof.
  destruct initial_form_and_live as [Hf0 Hl0].
  destruct (run_from_keeps_form_and_live evs initialWorld Hf0 Hl0) as [Hf [Hl _]].
  fold (Session.run evs) in Hf, Hl. cbv zeta.
  set (w := Session.run evs) in *. unfold formInvariant in Hf.
  intros Hu. specialize (Hl _ Hu). rewrite Hu in Hf.
  destruct (selectedFile (input w)); [|contradiction].
  destruct Hf as (n & Hn & ->).
  assert (H1 : n < blobs (Session.step w (Session.ChooseFile file))
               /\ inputPreviewUrl (input (Session.step w (Session.ChooseFile file)))
                  <> Some (blobUrl n)
               /\ revocations (blobUrl n) (Session.step w (Session.ChooseFile file)) = 0).
  { unfold Session.step; unfold_form.
    destruct file as [g|]; cbn; [|split; [exact Hn|split; [discriminate|exact Hl]]].
    destruct (JsString.startsWith "image/" (file_type g)); cbn.
    - split; [lia|]. split.
      + intros E. assert (E' : blobUrl (blobs w) = blobUrl n) by congruence.
        apply blobUrl_inj in E'. lia.
      + unfold revocations, with_input, with_event, with_blob in *. cbn [trace].
        rewrite count_app, Hl. reflexivity.
    - split; [exact Hn|]. split; [discriminate|].
      unfold revocations, with_input, with_event in *. cbn [trace].
      rewrite count_app, Hl. reflexivity. }
  destruct H1 as (Hn1 & Hp1 & Hr1). split; [exact Hp1|].
  rewrite run_from_keeps_orphan by assumption. exact Hr1.
Qed.

Lemma replaced_preview_is_never_released_witness :
  let w := Session.run [Session.ChooseFile (Some Sample.png)] in
  let w1 := Session.step w (Session.ChooseFile (Some Sample.png)) in
  inputPreviewUrl (input w1) <> Some "blob:0"%string
  /\ revocations "blob:0"
       (fold_left Session.step
          [Session.Submit; Session.Resume Sample.answering 0; Session.ClearFile] w1)
     = 0.
Proof.
  apply (replaced_preview_is_never_released
           [Session.ChooseFile (Some Sample.png)] (Some Sample.png)
           [Session.Submit; Session.Resume Sample.answering 0; Session.ClearFile]
           "blob:0").
  reflexivity.
Defined.

(* ================================================================== *)
(** ** The log over a session *)
(* ================================================================== *)

Lemma trimEnd_cons_kept c r :
  JsString.isWhiteSpace c = false ->
  JsString.trimEnd (String c r) = String c (JsString.trimEnd r).
Proof.
  intros Hc. cbn [JsString.trimEnd]. rewrite Hc.
  destruct (JsString.trimEnd r); reflexivity.
Qed.

Lemma trimEnd_idempotent s :
  JsString.trimEnd (JsString.trimEnd s) = JsString.trimEnd s.
Proof.
  induction s as [|c r IH]; [reflexivity|].
  cbn [JsString.trimEnd].
  destruct (JsString.trimEnd r) as [|d t] eqn:Hr.
  - destruct (JsString.isWhiteSpace c) eqn:Hc; [reflexivity|].
    cbn [JsString.trimEnd]. rewrite Hc. reflexivity.
  - change (JsString.trimEnd (String c (String d t))) with
      (match JsString.trimEnd (String d t) with
       | EmptyString =>
           if JsString.isWhiteSpace c then EmptyString else String c EmptyString
       | r' => String c r'
       end).
    rewrite IH. reflexivity.
Qed.

Lemma trimStart_cases s :
  JsString.trimStart s = EmptyString
  \/ exists c r, JsString.trimStart s = String c r
                 /\ JsString.isWhiteSpace c = false.
Proof.
  induction s as [|c r IH]; [left; reflexivity|].
  cbn [JsString.trimStart]. destruct (JsString.isWhiteSpace c) eqn:Hc.
  - exact IH.
  - right. exists c, r. auto.
Qed.

Lemma trim_idempotent s : JsString.trim (JsString.trim s) = JsString.trim s.
Proof.
  unfold JsString.trim.
  destruct (trimStart_cases s) as [->|(c & r & -> & Hc)]; [reflexivity|].
  rewrite (trimEnd_cons_kept c r Hc).
  cbn [JsString.trimStart]. rewrite Hc.
  rewrite (trimEnd_cons_kept c _ Hc), trimEnd_idempotent. reflexivity.
Qed.

(** What one step adds to the log. *)
Lemma step_log w ev :
  exists ms,
    messages (Session.step w ev) = messages w ++ ms
    /\ List.length ms <= (if isResume ev then 2 else 0)
    /\ Forall (fun m => turnWellFormed m
                        /\ (sender m = user ->
                            exists t, In t (pending w) /\ text m = turn_text t)) ms.
Proof.
  destruct (isResume ev) eqn:Hev.
  - destruct ev as [v|file| | |m|env i]; try discriminate Hev.
    destruct (step_resume_frame w env i) as (_ & _ & Hm & _). exact Hm.
  - exists []. rewrite app_nil_r.
    split; [apply form_event_keeps_log; exact Hev|]. split; [cbn; lia|constructor].
Qed.

Lemma run_from_log evs w :
  exists ms,
    messages (fold_left Session.step evs w) = messages w ++ ms
    /\ List.length ms <= 2 * List.length (filter isResume evs).
Proof.
  revert w. induction evs as [|ev evs IH]; intros w.
  - exists []. rewrite app_nil_r. split; [reflexivity | cbn; lia].
  - cbn [fold_left filter].
    destruct (IH (Session.step w ev)) as (ms2 & H2 & L2).
    destruct (step_log w ev) as (ms1 & H1 & L1 & _).
    exists (ms1 ++ ms2). rewrite H2, H1, app_assoc.
    split; [reflexivity|]. rewrite length_app.
    destruct (isResume ev); cbn [List.length] in *; lia.
Qed.

Lemma length_remove_nth {A} i (l : list A) x :
  nth_error l i = Some x ->
  S (List.length (Session.remove_nth i l)) = List.length l.
Proof.
  revert i. induction l as [|y l IH]; intros i H.
  - destruct i; discriminate H.
  - destruct i as [|i]; cbn [Session.remove_nth List.length]; [reflexivity|].
    cbn [nth_error] in H. rewrite (IH i H). reflexivity.
Qed.

(** Turns in the log and turns still suspended, counted against the
    submissions made. *)
Lemma step_budget w ev :
  List.length (messages (Session.step w ev))
  + 2 * List.length (pending (Session.step w ev))
  <= List.length (messages w) + 2 * List.length (pending w)
     + (if isSubmit ev then 2 else 0).
Proof.
  destruct ev as [v|file| | |m|env i]; cbn [isSubmit].
  1-3, 5: (match goal with
           | |- context [Session.step _ ?ev] =>
               destruct (form_event_keeps_flight w ev I) as [_ ->];
               rewrite (form_event_keeps_log w ev eq_refl)
           end; lia).
  - rewrite (form_event_keeps_log w Session.Submit eq_refl).
    destruct (isLoading w) eqn:Hl.
    + unfold Session.step. rewrite handleSubmit_while_loading by exact Hl.
      cbn [snd]. lia.
    + destruct (step_submit_idle w Hl) as [->|(_ & -> & _)]; [lia|].
      rewrite length_app. cbn [List.length]. lia.
  - pose proof (step_resume w env i) as H. cbv zeta in H.
    destruct (nth_error (pending w) i) as [t|] eqn:Hnth.
    + destruct (step_resume_frame w env i) as (_ & _ & (ms & Hms & Hlen & _) & _).
      destruct H as (_ & _ & Hp). rewrite Hms, Hp, length_app.
      pose proof (length_remove_nth i (pending w) t Hnth). lia.
    + rewrite H. lia.
Qed.

Lemma run_from_budget evs w :
  List.length (messages (fold_left Session.step evs w))
  + 2 * List.length (pending (fold_left Session.step evs w))
  <= List.length (messages w) + 2 * List.length (pending w)
     + 2 * List.length (filter isSubmit evs).
Proof.
  revert w. induction evs as [|ev evs IH]; intros w; [cbn; lia|].
  cbn [fold_left filter].
  pose proof (IH (Session.step w ev)) as H1.
  pose proof (step_budget w ev) as H2.
  destruct (isSubmit ev); cbn [List.length] in *; lia.
Qed.

(** X17.  The log only grows at its end: after further events it is the
    earlier log followed by new turns, and it never holds more than two
    turns per submission made. *)
Theorem log_is_append_only evs1 evs2 :
  (exists ms,
     messages (Session.run (evs1 ++ evs2)) = messages (Session.run evs1) ++ ms)
  /\ List.length (messages (Session.run evs1))
     <= 2 * List.length (filter isSubmit evs1).
Proof.
  split.
  - unfold Session.run. rewrite fold_left_app.
    destruct (run_from_log evs2 (fold_left Session.step evs1 initialWorld))
      as (ms & Hms & _).
    exists ms. exact Hms.
  - pose proof (run_from_budget evs1 initialWorld) as H.
    fold (Session.run evs1) in H. cbn [messages pending initialWorld List.length] in H.
    lia.
Qed.

Lemma step_keeps_well_formed w ev :
  Forall turnWellFormed (messages w) ->
  Forall turnWellFormed (messages (Session.step w ev)).
Proof.
  intros H. destruct (step_log w ev) as (ms & -> & _ & Hms).
  apply Forall_app. split; [exact H|].
  eapply Forall_impl; [|exact Hms]. intros m [Hm _]. exact Hm.
Qed.

Lemma run_from_keeps_well_formed evs w :
  Forall turnWellFormed (messages w) ->
  Forall turnWellFormed (messages (fold_left Session.step evs w)).
Proof.
  revert w. induction evs as [|ev evs IH]; intros w H; [exact H|].
  cbn [fold_left]. apply IH. apply step_keeps_well_formed. exact H.
Qed.

(** X18.  In every reachable log, user turns carry no sources, so no citation
    list is rendered for them, and AI turns carry no image. *)
Theorem log_turns_are_well_formed evs hostname :
  Forall (fun m =>
            match sender m with
            | user => sources m = None
                      /\ ChatWindowView.sourcesBlock hostname m = Some None
            | ai => imageUrl m = None
            end)
         (messages (Session.run evs)).
Proof.
  assert (H : Forall turnWellFormed (messages (Session.run evs))).
  { apply run_from_keeps_well_formed. constructor. }
  eapply Forall_impl; [|exact H]. intros m Hm.
  unfold turnWellFormed in Hm. destruct (sender m); [|exact Hm].
  split; [exact Hm|]. unfold ChatWindowView.sourcesBlock. rewrite Hm. reflexivity.
Qed.

Lemma step_keeps_turnsTrimmed w ev :
  turnsTrimmed w -> turnsTrimmed (Session.step w ev).
Proof.
  intros [Hp Hm]. split.
  - destruct ev as [v|file| | |m|env i].
    1-3, 5: (match goal with
             | |- Forall _ (pending (Session.step _ ?ev)) =>
                 destruct (form_event_keeps_flight w ev I) as [_ ->]
             end; exact Hp).
    + destruct (isLoading w) eqn:Hl.
      * unfold Session.step. rewrite handleSubmit_while_loading by exact Hl. exact Hp.
      * destruct (step_submit_idle w Hl) as [->|(_ & -> & _)]; [exact Hp|].
        apply Forall_app. split; [exact Hp|].
        constructor; [|constructor]. cbn [turn_text]. apply trim_idempotent.
    + pose proof (step_resume w env i) as H. cbv zeta in H.
      destruct (nth_error (pending w) i).
      * destruct H as (_ & _ & ->). apply Forall_remove_nth. exact Hp.
      * rewrite H. exact Hp.
  - destruct (step_log w ev) as (ms & -> & _ & Hms).
    apply Forall_app. split; [exact Hm|].
    eapply Forall_impl; [|exact Hms]. intros m0 [_ Htxt] Hu.
    destruct (Htxt Hu) as (t & Hin & ->).
    rewrite Forall_forall in Hp. apply Hp. exact Hin.
Qed.

Lemma run_from_keeps_turnsTrimmed evs w :
  turnsTrimmed w -> turnsTrimmed (fold_left Session.step evs w).
Proof.
  revert w. induction evs as [|ev evs IH]; intros w H; [exact H|].
  cbn [fold_left]. apply IH. apply step_keeps_turnsTrimmed. exact H.
Qed.

(** X19.  The text of every user turn of a reachable log, and of every suspended
    turn, has no leading or trailing white space. *)
Theorem user_turns_are_trimmed evs :
  Forall (fun m => sender m = user -> JsString.trim (text m) = text m)
         (messages (Session.run evs))
  /\ Forall (fun t => JsString.trim (turn_text t) = turn_text t)
            (pending (Session.run evs)).
Proof.
  assert (H : turnsTrimmed (Session.run evs)).
  { apply run_from_keeps_turnsTrimmed. split; constructor. }
  destruct H as [Hp Hm]. split; assumption.
Qed.

Example padded_text_is_logged_trimmed :
  let w := Session.run [Session.TypeText "  hello  "; Session.Submit;
                        Session.Resume Sample.answering 0] in
  map (fun m => (sender m, text m)) (messages w)
  = [(user, "hello"%string); (ai, "A red square."%string)].
Proof. reflexivity. Qed.

(** X20.  A turn sends exactly one request to the SDK when it reaches the
    gateway and the client is constructed, and none otherwise; it opens
    the key dialog at most once. *)
Theorem requests_per_turn env mode txt file w :
  let w' := snd (handleSendMessage env mode txt file w) in
  count isSdkRequest (trace w')
  = count isSdkRequest (trace w)
    + (if reachesGateway mode file
       then match genai_ctor env with None => 1 | Some _ => 0 end
       else 0)
  /\ reselections w <= reselections w' <= reselections w + 1.
Proof.
  unfold reachesGateway, decodeFails, reselections. unfold_turn.
  destruct file as [f|]; [destruct (fileToBase64 f)|];
    destruct mode; destruct (genai_ctor env); cbn;
    rewrite ?truthy_blobUrl; cbn; split_oracles; cbn;
    rewrite ?count_app; unfold count; cbn; lia.
Qed.

(** X21.  Whenever the flight flag is set in a reachable state, resuming the
    suspended turn clears it, whatever the outside world answers, and
    leaves the form as it was. *)
Theorem resumed_turn_reenables_submission evs env :
  let w := Session.run evs in
  isLoading w = true ->
  let w' := Session.step w (Session.Resume env 0) in
  isLoading w' = false /\ pending w' = [] /\ input w' = input w.
Proof.
  cbv zeta. intros Hl.
  assert (Hinv : flightInvariant (Session.run evs)).
  { apply run_from_keeps_flightInvariant. left. split; reflexivity. }
  destruct Hinv as [[Hl' _]|[_ [t Hp]]]; [congruence|].
  pose proof (step_resume (Session.run evs) env 0) as H. cbv zeta in H.
  rewrite Hp in H. cbn [nth_error Session.remove_nth] in H.
  destruct H as (H1 & H2 & H3). auto.
Qed.

Lemma resumed_turn_reenables_submission_witness :
  let w := Session.run [Session.TypeText "hi"; Session.Submit] in
  let w' := Session.step w (Session.Resume Sample.sdkNotFound 0) in
  isLoading w' = false /\ pending w' = [] /\ input w' = input w.
Proof.
  apply (resumed_turn_reenables_submission
           [Session.TypeText "hi"; Session.Submit] Sample.sdkNotFound).
  reflexivity.
Defined.


Lemma sdk_failure_turn_witness :
  let res := handleSendMessage MoreSamples.sdkDown SearchGrounded "weather today"
               None initialWorld in
  fst res = Normal tt
  /\ (exists mu ma,
        messages (snd res) = messages initialWorld ++ [mu; ma]
        /\ sender mu = user /\ text mu = "weather today"%string
        /\ sender ma = ai
        /\ text ma = ("AI Error: " ++ failureText SearchGrounded)%string
        /\ sources ma = None)
  /\ reselections (snd res) = reselections initialWorld
  /\ count isConsoleError (trace (snd res))
     = count isConsoleError (trace initialWorld) + 2.
Proof.
  apply (sdk_failure_turn MoreSamples.sdkDown SearchGrounded "weather today" None
           (Error "fetch failed") initialWorld); reflexivity.
Defined.

Lemma client_construction_failure_witness :
  let res := callCapability MoreSamples.noApiKey FastResponse "hello" None
               initialWorld in
  fst res = Throws (Error "An API Key must be set when running in a browser")
  /\ count isSdkRequest (trace (snd res)) = count isSdkRequest (trace initialWorld)
  /\ count isConsoleError (trace (snd res)) = count isConsoleError (trace initialWorld)
  /\ messages (snd res) = messages initialWorld.
Proof.
  apply (client_construction_failure MoreSamples.noApiKey FastResponse "hello" None
           "An API Key must be set when running in a browser" initialWorld).
  reflexivity.
Defined.

Lemma user_turn_image_is_released_witness :
  let u := blobUrl (blobs initialWorld) in
  let w' := snd (handleSendMessage Sample.answering Standard "Describe this"
                   (Some Sample.png) initialWorld) in
  (exists mu rest, messages w' = messages initialWorld ++ mu :: rest
                   /\ sender mu = user /\ imageUrl mu = Some u)
  /\ revocations u initialWorld < revocations u w'.
Proof.
  apply (user_turn_image_is_released Sample.answering Standard "Describe this"
           Sample.png (Some "iVBORw0KGgo="%string) initialWorld).
  reflexivity.
Defined.
